(** * InstantSearch.js widgets: [searchBox] and [menuSelect]

    A shallow embedding of the two widget factories
    ([src/widgets/search-box/search-box.js] and the menu-select widget),
    their renderer closures and the search-box disposer, together with
    the properties of the widget factory / connector lifecycle.

    JavaScript effects are made explicit: a factory or a renderer is a
    function from a [World] (the DOM, the heap cells holding the
    [renderState] objects, and the trace of calls into the outside
    libraries) to an outcome (a returned value or a thrown exception) and
    the world it leaves behind. *)

From stdpp Require Import base strings list gmap.

Open Scope string_scope.
Open Scope list_scope.

(** ** JavaScript values *)

(** A DOM node is an object reference; the model names it by its index in
    the DOM store.  A [renderState] object is a reference too. *)
Abbreviation node := nat (only parsing).
Abbreviation loc := nat (only parsing).

(** The values an option bag can carry.  Functions are opaque to the
    widgets (they are only passed on), so a function is its identity. *)
Inductive value :=
| VUndefined
| VNull
| VBool (b : bool)
| VNum (n : Z)
| VStr (s : string)
| VElem (n : node)
| VFun (f : nat)
| VStrings (l : list string).

(** [!v] is [negb (truthy v)]. *)
Definition truthy (v : value) : bool :=
  match v with
  | VUndefined | VNull => false
  | VBool b => b
  | VNum n => negb (n =? 0)%Z
  | VStr s => negb (String.eqb s "")
  | VElem _ | VFun _ | VStrings _ => true
  end.

(** [typeof v === 'boolean'] *)
Definition is_boolean (v : value) : bool :=
  match v with VBool _ => true | _ => false end.

(** A default parameter value ([x = d] in a destructuring pattern)
    applies exactly when the property is [undefined]. *)
Definition param_default (d v : value) : value :=
  match v with VUndefined => d | _ => v end.

(** The argument of a one-parameter function called with an options
    object, with [null], or with nothing at all. *)
Inductive jsarg (A : Type) :=
| ArgAbsent
| ArgNull
| ArgObj (a : A).
Arguments ArgAbsent {A}.
Arguments ArgNull {A}.
Arguments ArgObj {A} a.

(** Thrown values: [new Error(message)], the engine's [TypeError], or any
    other value a collaborator throws. *)
Inductive exn :=
| Error (message : string)
| TypeError (message : string)
| Thrown (v : value).

(** A class-name override: [string | string[]], or absent. *)
Inductive classArg :=
| ClsUndefined
| ClsString (s : string)
| ClsArray (l : list string).

(** An item of the menu connector's [items]. *)
Record Item := {
  label : string;
  item_value : string;
  count : Z;
  isRefined : bool
}.

(** Modelled from the spec: the bundle returned by [prepareTemplateProps]
    of [lib/utils] (not among the sources): the resolved templates, the
    default templates, the transform function and the consumer-supplied
    template configuration. *)
Record TemplateProps := {
  tp_templates : gmap string value;
  tp_defaultTemplates : gmap string value;
  tp_transformData : value;
  tp_templatesConfig : value
}.

(** The [renderState] object of a menu-select instance: [{}] until
    [templateProps] is assigned. *)
Record RenderState := { templateProps : option TemplateProps }.

Definition emptyRenderState : RenderState := {| templateProps := None |}.

(** ** Virtual nodes handed to the DOM-rendering library *)

Record MenuSelectProps := {
  msp_cssClasses : gmap string string;
  msp_items : list Item;
  msp_refine : value;
  msp_templateProps : option TemplateProps;
  msp_canRefine : value
}.

Record SearchBoxProps := {
  sbp_query : value;
  sbp_placeholder : value;
  sbp_autofocus : value;
  sbp_refine : value;
  sbp_searchAsYouType : value;
  sbp_templates : gmap string value;
  sbp_showSubmit : value;
  sbp_showReset : value;
  sbp_showLoadingIndicator : value;
  sbp_isSearchStalled : value;
  sbp_cssClasses : gmap string string
}.

Inductive vnode :=
| MenuSelectEl (props : MenuSelectProps)
| SearchBoxEl (props : SearchBoxProps).

(** ** The world *)

Record DomNode := {
  tagName : string;
  parentNode : option node;
  childNodes : list node
}.

(** The trace of effects that leave the module, in the order they happen:
    a selector lookup in the document, a call of [warning(condition,
    message)], a call of [render(vnode, container)], and an assignment to
    the [templateProps] property of a [renderState] object. *)
Inductive event :=
| EvQuerySelector (selector : string)
| EvWarning (condition : bool) (message : string)
| EvRender (v : vnode) (container : node)
| EvStore (l : loc).

Record World := {
  dom : list DomNode;
  heap : list RenderState;
  log : list event
}.

Definition is_render (e : event) : bool :=
  match e with EvRender _ _ => true | _ => false end.

Definition is_store (l : loc) (e : event) : bool :=
  match e with EvStore l' => Nat.eqb l l' | _ => false end.

Fixpoint count_events (p : event -> bool) (t : list event) : nat :=
  match t with
  | [] => 0
  | e :: t' => (if p e then 1 else 0) + count_events p t'
  end.

(** Calls into the DOM-rendering library recorded in a trace. *)
Definition render_calls (t : list event) : nat := count_events is_render t.

(** Assignments to [templateProps] of the object at [l]. *)
Definition stores_to (l : loc) (t : list event) : nat :=
  count_events (is_store l) t.

(** ** The effect monad *)

Inductive outcome (A : Type) :=
| Returned (a : A)
| Threw (e : exn).
Arguments Returned {A} a.
Arguments Threw {A} e.

Definition M (A : Type) : Type := World -> outcome A * World.

Definition ret {A} (a : A) : M A := fun w => (Returned a, w).

Definition throw {A} (e : exn) : M A := fun w => (Threw e, w).

Definition bind {A B} (c : M A) (k : A -> M B) : M B :=
  fun w =>
    match c w with
    | (Returned a, w') => k a w'
    | (Threw e, w') => (Threw e, w')
    end.

(** [try { c } catch (e) { h e }]: what [c] did to the world before it
    threw stays done. *)
Definition try_catch {A} (c : M A) (h : exn -> M A) : M A :=
  fun w =>
    match c w with
    | (Returned a, w') => (Returned a, w')
    | (Threw e, w') => h e w'
    end.

Notation "'let!' x ':=' c 'in' k" := (bind c (fun x => k))
  (at level 10, x name, c at level 100, k at level 200).
Notation "'do!' c 'in' k" := (bind c (fun _ => k))
  (at level 10, c at level 100, k at level 200).

Definition emit (e : event) : M unit :=
  fun w => (Returned tt, {| dom := dom w; heap := heap w; log := log w ++ [e] |}).

(** [render(vnode, containerNode)] of the DOM-rendering library: the call
    is recorded; what the library then does to the subtree of the
    container is not part of the model. *)
Definition render (v : vnode) (containerNode : node) : M unit :=
  emit (EvRender v containerNode).

(** [warning(condition, message)] of [lib/utils]: the call is recorded
    with the condition it was given. *)
Definition warning (condition : bool) (message : string) : M unit :=
  emit (EvWarning condition message).

(** [renderState: {}] allocates a fresh object. *)
Definition alloc_renderState : M loc :=
  fun w => (Returned (length (heap w)),
            {| dom := dom w; heap := heap w ++ [emptyRenderState]; log := log w |}).

(** [renderState.templateProps = tp] *)
Definition set_templateProps (l : loc) (tp : TemplateProps) : M unit :=
  fun w => (Returned tt,
            {| dom := dom w;
               heap := <[l := {| templateProps := Some tp |}]> (heap w);
               log := log w ++ [EvStore l] |}).

(** [renderState.templateProps]: [undefined] while it was never assigned. *)
Definition get_templateProps (l : loc) : M (option TemplateProps) :=
  fun w => (Returned (r ← heap w !! l; templateProps r), w).

(** ** The DOM: ranges

    The browser's [Range], for ranges whose two boundary points lie in one
    container node, which is all [selectNodeContents] produces. *)

Record Range := {
  rangeContainer : node;
  startOffset : nat;
  endOffset : nat
}.

(** The document is node [0] of the store. *)
Definition documentNode : node := 0.

(** [document.createRange()]: collapsed at the start of the document. *)
Definition createRange : M Range :=
  ret {| rangeContainer := documentNode; startOffset := 0; endOffset := 0 |}.

Definition node_length (d : list DomNode) (n : node) : nat :=
  match d !! n with
  | Some x => length (childNodes x)
  | None => 0
  end.

(** [range.selectNodeContents(n)]: from offset 0 to the length of [n]. *)
Definition selectNodeContents (r : Range) (n : node) : M Range :=
  fun w => (Returned {| rangeContainer := n; startOffset := 0;
                        endOffset := node_length (dom w) n |}, w).

Definition orphan (y : DomNode) : DomNode :=
  {| tagName := tagName y; parentNode := None; childNodes := childNodes y |}.

Definition with_children (l : list node) (x : DomNode) : DomNode :=
  {| tagName := tagName x; parentNode := parentNode x; childNodes := l |}.

(** A removed node loses its parent and keeps its own subtree. *)
Definition detach (c : node) (d : list DomNode) : list DomNode :=
  match d !! c with
  | Some y => <[c := orphan y]> d
  | None => d
  end.

Definition set_childNodes (n : node) (l : list node) (d : list DomNode)
  : list DomNode :=
  match d !! n with
  | Some x => <[n := with_children l x]> d
  | None => d
  end.

(** [range.deleteContents()]: the children between the two offsets are
    removed from the container, and the range collapses to its start. *)
Definition deleteContents (r : Range) : M Range :=
  fun w =>
    let n := rangeContainer r in
    match dom w !! n with
    | None => (Returned r, w)
    | Some x =>
        let kids := childNodes x in
        let removed := take (endOffset r - startOffset r)
                            (drop (startOffset r) kids) in
        let kept := take (startOffset r) kids ++ drop (endOffset r) kids in
        (Returned {| rangeContainer := n; startOffset := startOffset r;
                     endOffset := startOffset r |},
         {| dom := set_childNodes n kept (foldr detach (dom w) removed);
            heap := heap w; log := log w |})
    end.

(** A well-formed store: no node is its own parent, a node with a parent
    is among that parent's children, and the children of a node exist and
    point back to it. *)
Definition node_wfb (d : list DomNode) (n : node) (x : DomNode) : bool :=
  negb (bool_decide (parentNode x = Some n))
  && match parentNode x with
     | Some p => match d !! p with
                 | Some y => bool_decide (n ∈ childNodes y)
                 | None => false
                 end
     | None => true
     end
  && forallb (fun c => match d !! c with
                       | Some y => bool_decide (parentNode y = Some n)
                       | None => false
                       end) (childNodes x).

Definition dom_wfb (d : list DomNode) : bool :=
  forallb (fun nx => node_wfb d nx.1 nx.2) (imap pair d).

(** ** Shared collaborators *)

(** The argument of [suit(...)]. *)
Record SuitOptions := {
  modifierName : option string;
  descendantName : option string
}.

(** What both widgets import and the sources do not contain: the widget
    objects a connector builds, the class-name builder [component] of
    [lib/suit], the document's selector lookup, and the message of the
    error [getContainerNode] raises. *)
Class Lib := {
  Widget : Type;
  component : string -> jsarg SuitOptions -> string;
  querySelector : list DomNode -> string -> option node;
  containerErrorMessage : value -> string
}.

Definition descendant (name : string) : jsarg SuitOptions :=
  ArgObj {| modifierName := None; descendantName := Some name |}.

Definition modifier (name : string) : jsarg SuitOptions :=
  ArgObj {| modifierName := Some name; descendantName := None |}.

(** The truthy members of a list of class tokens. *)
Definition truthy_strings (l : list string) : list string :=
  List.filter (fun s => negb (String.eqb s "")) l.

Definition cx_join (l : list string) : string :=
  String.concat " " (truthy_strings l).

(** Modelled from the spec: [cx], the import of the [classnames] package
    (not among the sources), "space-joined, duplicates permitted", for a
    class token and an override of the documented type
    [string | string[]]: falsy arguments are skipped, an array contributes
    the join of its own truthy members, and what was collected is joined
    by single spaces. *)
Definition cx (base : string) (user : classArg) : string :=
  cx_join (base :: match user with
                   | ClsUndefined => []
                   | ClsString s => [s]
                   | ClsArray l => [cx_join l]
                   end).

(** The object the factory reads the overrides from: the parameter default
    [{}] when the [cssClasses] option is [undefined], the user's object
    otherwise. *)
Definition overrides_of (userCssClasses : jsarg (gmap string classArg))
  : gmap string classArg :=
  match userCssClasses with
  | ArgObj u => u
  | _ => ∅
  end.

(** Reading a property of [null]. *)
Definition null_property_error : exn :=
  TypeError "Cannot read property 'root' of null".

(** The first read [userCssClasses.root] of the [cssClasses] literal: the
    parameter default does not apply to [null], and reading a property of
    [null] throws. *)
Definition read_cssClasses (userCssClasses : jsarg (gmap string classArg))
  : M (gmap string classArg) :=
  match userCssClasses with
  | ArgNull => throw null_property_error
  | _ => ret (overrides_of userCssClasses)
  end.

(** [userCssClasses.slot] *)
Definition class_of (userCssClasses : gmap string classArg) (slot : string)
  : classArg :=
  default ClsUndefined (userCssClasses !! slot).

Section Container.
Context `{Lib}.

(** Modelled from the spec: [getContainerNode] of [lib/utils] (not among
    the sources), which accepts either a direct handle or a lookup key and
    fails with the container-not-found error if a lookup key resolves to
    nothing.  A lookup key is resolved through the document, a handle is
    returned as it is. *)
Definition getContainerNode (container : value) : M node :=
  match container with
  | VStr selector =>
      do! emit (EvQuerySelector selector) in
      fun w =>
        match querySelector (dom w) selector with
        | Some n => (Returned n, w)
        | None => (Threw (Error (containerErrorMessage container)), w)
        end
  | VElem n => ret n
  | _ => throw (Error (containerErrorMessage container))
  end.

(** [containerNode.tagName] *)
Definition tagName_of (n : node) : M string :=
  fun w => (Returned (default "" (tagName <$> dom w !! n)), w).
End Container.

(** ** The menu-select widget *)

Module MenuSelect.

(** [MenuSelectWidgetOptions]; an absent property is [VUndefined]
    ([ArgAbsent] for [cssClasses], [None] for [templates]). *)
Record Options := {
  container : value;
  attribute : value;
  sortBy : value;
  limit : value;
  cssClasses : jsarg (gmap string classArg);
  templates : option (gmap string value);
  transformData : value;
  transformItems : value
}.

(** What the factory closes the renderer over. *)
Record RendererParams := {
  r_containerNode : node;
  r_cssClasses : gmap string string;
  r_renderState : loc;
  r_templates : gmap string value;
  r_transformData : value
}.

Record SearchInstance := { templatesConfig : value }.

(** The render payload the menu connector delivers. *)
Record Payload := {
  refine : value;
  items : list Item;
  canRefine : value;
  instantSearchInstance : SearchInstance
}.

(** The argument of [prepareTemplateProps]. *)
Record PrepareArgs := {
  pa_transformData : value;
  pa_defaultTemplates : gmap string value;
  pa_templatesConfig : value;
  pa_templates : gmap string value
}.

(** The argument of [makeWidget]. *)
Record WidgetParams := {
  wp_attribute : value;
  wp_limit : value;
  wp_sortBy : value;
  wp_transformItems : value
}.

Definition RenderFn : Type := Payload -> bool -> M unit.

(** The imports of the widget that the sources do not contain.
    [connectMenu r params] stands for the two calls
    [connectMenu(r)(params)], which the factory makes inside one [try]. *)
Class Imports `{Lib} := {
  connectMenu : RenderFn -> WidgetParams -> M Widget;
  defaultTemplates : gmap string value;
  prepareTemplateProps : PrepareArgs -> TemplateProps
}.

(** Modelled from the spec: [prepareTemplateProps] of [lib/utils] (not
    among the sources): for every template slot the user-supplied template
    overrides the default, and an unspecified slot falls back to the
    default; the result bundles them with the default templates, the
    transform function and the template configuration. *)
Definition prepareTemplateProps_model (a : PrepareArgs) : TemplateProps :=
  {| tp_templates := pa_templates a ∪ pa_defaultTemplates a;
     tp_defaultTemplates := pa_defaultTemplates a;
     tp_transformData := pa_transformData a;
     tp_templatesConfig := pa_templatesConfig a |}.

Definition usage : string :=
"Usage:
menuSelect({
  container,
  attribute,
  [ sortBy=['name:asc'] ],
  [ limit=10 ],
  [ cssClasses.{root, noRefinementRoot, select, option} ]
  [ templates.{item,seeAllOptions} ],
  [ transformData.{item} ],
  [ transformItems ]
})".

(** The options of the factory's parameter list. *)
Definition option_names : list string :=
  ["container"; "attribute"; "sortBy"; "limit"; "cssClasses"; "templates";
   "transformData"; "transformItems"].

(** Destructuring [undefined] or [null] in the parameter list. *)
Definition destructure_error : exn :=
  TypeError "Cannot destructure property 'container' of 'undefined' or 'null'.".

Section Widget.
Context `{Imports}.

Definition suit : jsarg SuitOptions -> string := component "MenuSelect".

(** The object passed to [prepareTemplateProps]. *)
Definition prepare_args (p : RendererParams) (payload : Payload)
  : PrepareArgs :=
  {| pa_transformData := r_transformData p;
     pa_defaultTemplates := defaultTemplates;
     pa_templatesConfig := templatesConfig (instantSearchInstance payload);
     pa_templates := r_templates p |}.

(** The [<MenuSelect ... />] element. *)
Definition element (p : RendererParams) (payload : Payload)
    (tp : option TemplateProps) : vnode :=
  MenuSelectEl {| msp_cssClasses := r_cssClasses p;
                  msp_items := items payload;
                  msp_refine := refine payload;
                  msp_templateProps := tp;
                  msp_canRefine := canRefine payload |}.

Definition renderer (p : RendererParams) : RenderFn :=
  fun payload isFirstRendering =>
    if isFirstRendering then
      set_templateProps (r_renderState p)
        (prepareTemplateProps (prepare_args p payload))
    else
      let! tp := get_templateProps (r_renderState p) in
      render (element p payload tp) (r_containerNode p).

(** The [cssClasses] object literal of the factory. *)
Definition build_cssClasses (userCssClasses : gmap string classArg)
  : gmap string string :=
  <["root" := cx (suit ArgAbsent) (class_of userCssClasses "root")]>
  (<["noRefinementRoot" :=
       cx (suit (modifier "noRefinement"))
          (class_of userCssClasses "noRefinementRoot")]>
  (<["select" := cx (suit (descendant "select"))
                    (class_of userCssClasses "select")]>
  (<["option" := cx (suit (descendant "option"))
                    (class_of userCssClasses "option")]> ∅))).

(** The factory up to [specializedRenderer]: validation, container
    resolution, class names, and the fresh [renderState]. *)
Definition specialize (o : Options) : M RendererParams :=
  if negb (truthy (container o)) || negb (truthy (attribute o)) then
    throw (Error usage)
  else
    let! containerNode := getContainerNode (container o) in
    let! userCssClasses := read_cssClasses (cssClasses o) in
    let cssClasses := build_cssClasses userCssClasses in
    let! renderState := alloc_renderState in
    ret {| r_containerNode := containerNode;
           r_cssClasses := cssClasses;
           r_renderState := renderState;
           r_templates := default defaultTemplates (templates o);
           r_transformData := transformData o |}.

Definition widgetParams (o : Options) : WidgetParams :=
  {| wp_attribute := attribute o;
     wp_limit := param_default (VNum 10) (limit o);
     wp_sortBy := param_default (VStrings ["name:asc"]) (sortBy o);
     wp_transformItems := transformItems o |}.

Definition menuSelect (arg : jsarg Options) : M Widget :=
  match arg with
  | ArgAbsent | ArgNull => throw destructure_error
  | ArgObj o =>
      let! p := specialize o in
      try_catch (connectMenu (renderer p) (widgetParams o))
                (fun _ => throw (Error usage))
  end.
End Widget.

End MenuSelect.

(** ** The search-box widget *)

Module SearchBox.

(** [SearchBoxWidgetOptions] *)
Record Options := {
  container : value;
  placeholder : value;
  cssClasses : jsarg (gmap string classArg);
  autofocus : value;
  searchAsYouType : value;
  showReset : value;
  showSubmit : value;
  showLoadingIndicator : value;
  queryHook : value;
  templates : option (gmap string value)
}.

(** The options object [{}]. *)
Definition emptyOptions : Options :=
  {| container := VUndefined; placeholder := VUndefined;
     cssClasses := ArgAbsent; autofocus := VUndefined;
     searchAsYouType := VUndefined; showReset := VUndefined;
     showSubmit := VUndefined; showLoadingIndicator := VUndefined;
     queryHook := VUndefined; templates := None |}.

Record RendererParams := {
  r_containerNode : node;
  r_cssClasses : gmap string string;
  r_placeholder : value;
  r_templates : gmap string value;
  r_autofocus : value;
  r_searchAsYouType : value;
  r_showReset : value;
  r_showSubmit : value;
  r_showLoadingIndicator : value
}.

(** The render payload the search-box connector delivers. *)
Record Payload := {
  refine : value;
  query : value;
  isSearchStalled : value
}.

Record WidgetParams := { wp_queryHook : value }.

Definition RenderFn : Type := Payload -> bool -> M unit.

(** The imports of the widget that the sources do not contain.
    [connectSearchBox r d params] stands for the two calls
    [connectSearchBox(r, d)(params)]; [createDocumentationLink name c] is
    the link for a widget, [c] telling whether the connector's anchor is
    asked for. *)
Class Imports `{Lib} := {
  connectSearchBox : RenderFn -> M unit -> WidgetParams -> M Widget;
  defaultTemplates : gmap string value;
  createDocumentationLink : string -> bool -> string;
  createDocumentationMessageGenerator : string -> string -> string
}.

(** The options of the factory's parameter list. *)
Definition option_names : list string :=
  ["container"; "placeholder"; "cssClasses"; "autofocus"; "searchAsYouType";
   "showReset"; "showSubmit"; "showLoadingIndicator"; "queryHook";
   "templates"].

Definition required_message : string := "The `container` option is required.".

Definition autofocus_message : string :=
  "The `autofocus` option only supports boolean values since InstantSearch.js 3.".

Definition destructure_error : exn :=
  TypeError "Cannot destructure property 'container' of 'null'.".

(** [{ ...target, ...source }]: the properties of [source] are copied
    over those of [target]. *)
Definition assign (target source : gmap string value) : gmap string value :=
  source ∪ target.

(** [{ ...defaultTemplates, ...templates }]; spreading [undefined]
    copies nothing. *)
Definition merge_templates (defaultTemplates : gmap string value)
    (templates : option (gmap string value)) : gmap string value :=
  assign (assign ∅ defaultTemplates) (default ∅ templates).

Section Widget.
Context `{Imports}.

Definition withUsage : string -> string :=
  createDocumentationMessageGenerator "search-box".

Definition suit : jsarg SuitOptions -> string := component "SearchBox".

Definition input_message : string :=
  "The `container` option doesn't accept `input` elements since InstantSearch.js 3.

You may want to migrate using `connectSearchBox`: "
  +:+ createDocumentationLink "searchbox" true +:+ ".".

(** The [<SearchBox ... />] element. *)
Definition element (p : RendererParams) (payload : Payload) : vnode :=
  SearchBoxEl {| sbp_query := query payload;
                 sbp_placeholder := r_placeholder p;
                 sbp_autofocus := r_autofocus p;
                 sbp_refine := refine payload;
                 sbp_searchAsYouType := r_searchAsYouType p;
                 sbp_templates := r_templates p;
                 sbp_showSubmit := r_showSubmit p;
                 sbp_showReset := r_showReset p;
                 sbp_showLoadingIndicator := r_showLoadingIndicator p;
                 sbp_isSearchStalled := isSearchStalled payload;
                 sbp_cssClasses := r_cssClasses p |}.

Definition renderer (p : RendererParams) (payload : Payload) : M unit :=
  render (element p payload) (r_containerNode p).

(** The renderer as the connector calls it, [renderFn(payload,
    isFirstRendering)]: the closure takes one parameter, the second
    argument is dropped. *)
Definition renderFn (p : RendererParams) : RenderFn :=
  fun payload _ => renderer p payload.

Definition disposer (containerNode : node) : M unit :=
  let! range := createRange in
  let! range := selectNodeContents range containerNode in
  let! _ := deleteContents range in
  ret tt.

Definition build_cssClasses (userCssClasses : gmap string classArg)
  : gmap string string :=
  let slot name := cx (suit (descendant name)) (class_of userCssClasses name) in
  <["root" := cx (suit ArgAbsent) (class_of userCssClasses "root")]>
  (<["form" := slot "form"]>
  (<["input" := slot "input"]>
  (<["submit" := slot "submit"]>
  (<["submitIcon" := slot "submitIcon"]>
  (<["reset" := slot "reset"]>
  (<["resetIcon" := slot "resetIcon"]>
  (<["loadingIndicator" := slot "loadingIndicator"]>
  (<["loadingIcon" := slot "loadingIcon"]> ∅)))))))).

(** The [templates] handed to the renderer. *)
Definition resolve_templates (templates : option (gmap string value))
  : gmap string value :=
  merge_templates defaultTemplates templates.

(** The factory up to [specializedRenderer]. *)
Definition specialize (o : Options) : M RendererParams :=
  if negb (truthy (container o)) then
    throw (Error (withUsage required_message))
  else
    let! containerNode := getContainerNode (container o) in
    let! tag := tagName_of containerNode in
    if String.eqb tag "INPUT" then
      throw (Error input_message)
    else
      let autofocus := param_default (VBool false) (autofocus o) in
      do! warning (is_boolean autofocus) autofocus_message in
      let! userCssClasses := read_cssClasses (cssClasses o) in
      ret {| r_containerNode := containerNode;
             r_cssClasses := build_cssClasses userCssClasses;
             r_placeholder := param_default (VStr "") (placeholder o);
             r_templates := resolve_templates (templates o);
             r_autofocus := autofocus;
             r_searchAsYouType :=
               param_default (VBool true) (searchAsYouType o);
             r_showReset := param_default (VBool true) (showReset o);
             r_showSubmit := param_default (VBool true) (showSubmit o);
             r_showLoadingIndicator :=
               param_default (VBool true) (showLoadingIndicator o) |}.

(** The parameter defaults to [{}] when the call passes nothing. *)
Definition searchBox (arg : jsarg Options) : M Widget :=
  match arg with
  | ArgNull => throw destructure_error
  | ArgAbsent | ArgObj _ =>
      let o := match arg with ArgObj o => o | _ => emptyOptions end in
      let! p := specialize o in
      connectSearchBox (renderFn p) (disposer (r_containerNode p))
                       {| wp_queryHook := queryHook o |}
  end.
End Widget.

End SearchBox.

(** ** Usage synopses *)

(** [needle] occurs somewhere in [text]. *)
Fixpoint mentions (needle text : string) : bool :=
  String.prefix needle text
  || match text with
     | EmptyString => false
     | String _ rest => mentions needle rest
     end.

(** A message is a usage synopsis of a factory when it names every option
    of the factory's parameter list. *)
Definition synopsis_of (option_names : list string) (message : string) : bool :=
  forallb (fun name => mentions name message) option_names.

(** ** The connector's calls *)

(** Modelled from the spec: the delivery discipline of the connector (not
    among the sources), which invokes the renderer with
    [isFirstRendering = true] once before any real update, and with
    [false] thereafter, on every subsequent state change. *)
Definition deliver {P} (renderFn : P -> bool -> M unit) (first : P)
    (rest : list P) : M unit :=
  do! renderFn first true in
  foldr (fun payload k => do! renderFn payload false in k) (ret tt) rest.

(** Any sequence of calls of a render function, each with its payload and
    the flag it is given, one after the other. *)
Definition run_calls {P} (renderFn : P -> bool -> M unit)
    (calls : list (P * bool)) : M unit :=
  foldr (fun call k => do! renderFn call.1 call.2 in k) (ret tt) calls.

(** The calls of a sequence that carry the given flag. *)
Definition calls_with {P} (flag : bool) (calls : list (P * bool)) : nat :=
  length (List.filter (fun call => Bool.eqb call.2 flag) calls).

Section Calls.
Context {L : Lib} {MI : @MenuSelect.Imports L}.

(** What [renderState.templateProps] holds after a sequence of calls of the
    menu-select renderer: the props prepared by the last call flagged as
    the first rendering, or what it held before when there is none. *)
Definition last_prepared (p : MenuSelect.RendererParams)
    (init : option TemplateProps)
    (calls : list (MenuSelect.Payload * bool)) : option TemplateProps :=
  foldl (fun cur call =>
           if call.2 : bool
           then Some (MenuSelect.prepareTemplateProps
                        (MenuSelect.prepare_args p call.1))
           else cur) init calls.
End Calls.

(** * Sample worlds and collaborators

    Concrete inputs on which the statements below are exercised. *)

Module Sample.

(** A document holding a [div] with rendered content and an [input]. *)
Definition page : list DomNode :=
  [ {| tagName := "#document"; parentNode := None; childNodes := [1; 5] |};
    {| tagName := "DIV"; parentNode := Some 0; childNodes := [2; 3] |};
    {| tagName := "FORM"; parentNode := Some 1; childNodes := [] |};
    {| tagName := "SPAN"; parentNode := Some 1; childNodes := [4] |};
    {| tagName := "svg"; parentNode := Some 3; childNodes := [] |};
    {| tagName := "INPUT"; parentNode := Some 0; childNodes := [] |} ].

Definition world : World := {| dom := page; heap := []; log := [] |}.

Definition lib : Lib :=
  {| Widget := string;
     component := fun name o =>
       "ais-" +:+ name +:+
       match o with
       | ArgObj so =>
           match descendantName so with Some d => "-" +:+ d | None => "" end
           +:+ match modifierName so with Some m => "--" +:+ m | None => "" end
       | _ => ""
       end;
     querySelector := fun d selector =>
       if String.eqb selector "#q" then Some 1 else None;
     containerErrorMessage := fun _ =>
       "Container must be `string` or `HTMLElement`." |}.

Definition menuTemplates : gmap string value :=
  <["item" := VStr "DEFAULT_ITEM"]> (<["seeAllOptions" := VStr "DEFAULT_ALL"]> ∅).

(** A menu connector that rejects its parameters. *)
Definition rejectingMenu : @MenuSelect.Imports lib :=
  {| MenuSelect.connectMenu := fun _ _ =>
       throw (Error "The `attribute` option is not valid.");
     MenuSelect.defaultTemplates := menuTemplates;
     MenuSelect.prepareTemplateProps := MenuSelect.prepareTemplateProps_model |}.

(** A menu connector that builds a widget. *)
Definition acceptingMenu : @MenuSelect.Imports lib :=
  {| MenuSelect.connectMenu := fun _ _ => ret ("menuSelect" : @Widget lib);
     MenuSelect.defaultTemplates := menuTemplates;
     MenuSelect.prepareTemplateProps := MenuSelect.prepareTemplateProps_model |}.

Definition searchTemplates : gmap string value :=
  <["reset" := VStr "DEFAULT_RESET"]> (<["submit" := VStr "DEFAULT_SUBMIT"]> ∅).

Definition documentationLink (name : string) (connector : bool) : string :=
  "https://www.algolia.com/doc/api-reference/widgets/" +:+ name
  +:+ "/js/" +:+ (if connector then "#connector" else "").

Definition documentationMessage (name message : string) : string :=
  message +:+ "

See documentation: " +:+ documentationLink name false.

(** A search-box connector that rejects its parameters. *)
Definition rejectingSearchBox : @SearchBox.Imports lib :=
  {| SearchBox.connectSearchBox := fun _ _ _ =>
       throw (Error "The `queryHook` option is not valid.");
     SearchBox.defaultTemplates := searchTemplates;
     SearchBox.createDocumentationLink := documentationLink;
     SearchBox.createDocumentationMessageGenerator := documentationMessage |}.

Definition acceptingSearchBox : @SearchBox.Imports lib :=
  {| SearchBox.connectSearchBox := fun _ _ _ => ret ("searchBox" : @Widget lib);
     SearchBox.defaultTemplates := searchTemplates;
     SearchBox.createDocumentationLink := documentationLink;
     SearchBox.createDocumentationMessageGenerator := documentationMessage |}.

Definition menuOptions (container attribute : value) : MenuSelect.Options :=
  {| MenuSelect.container := container;
     MenuSelect.attribute := attribute;
     MenuSelect.sortBy := VUndefined;
     MenuSelect.limit := VUndefined;
     MenuSelect.cssClasses := ArgAbsent;
     MenuSelect.templates := None;
     MenuSelect.transformData := VUndefined;
     MenuSelect.transformItems := VUndefined |}.

Definition searchOptions (container autofocus : value) : SearchBox.Options :=
  {| SearchBox.container := container;
     SearchBox.placeholder := VUndefined;
     SearchBox.cssClasses := ArgAbsent;
     SearchBox.autofocus := autofocus;
     SearchBox.searchAsYouType := VUndefined;
     SearchBox.showReset := VUndefined;
     SearchBox.showSubmit := VUndefined;
     SearchBox.showLoadingIndicator := VUndefined;
     SearchBox.queryHook := VUndefined;
     SearchBox.templates := None |}.

Definition searchParams : SearchBox.RendererParams :=
  {| SearchBox.r_containerNode := 1;
     SearchBox.r_cssClasses := ∅;
     SearchBox.r_placeholder := VStr "Search for products";
     SearchBox.r_templates := searchTemplates;
     SearchBox.r_autofocus := VBool false;
     SearchBox.r_searchAsYouType := VBool true;
     SearchBox.r_showReset := VBool true;
     SearchBox.r_showSubmit := VBool true;
     SearchBox.r_showLoadingIndicator := VBool true |}.

(** What [searchBox] closes the renderer over for the container [div]
    and no other option but [autofocus]. *)
Definition searchSpecialized (autofocus : value) : SearchBox.RendererParams :=
  {| SearchBox.r_containerNode := 1;
     SearchBox.r_cssClasses := @SearchBox.build_cssClasses lib ∅;
     SearchBox.r_placeholder := VStr "";
     SearchBox.r_templates := SearchBox.merge_templates searchTemplates None;
     SearchBox.r_autofocus := param_default (VBool false) autofocus;
     SearchBox.r_searchAsYouType := VBool true;
     SearchBox.r_showReset := VBool true;
     SearchBox.r_showSubmit := VBool true;
     SearchBox.r_showLoadingIndicator := VBool true |}.

Definition searchPayload : SearchBox.Payload :=
  {| SearchBox.refine := VFun 1;
     SearchBox.query := VStr "phone";
     SearchBox.isSearchStalled := VBool false |}.

Definition menuParams : MenuSelect.RendererParams :=
  {| MenuSelect.r_containerNode := 1;
     MenuSelect.r_cssClasses := ∅;
     MenuSelect.r_renderState := 0;
     MenuSelect.r_templates := <["seeAllOptions" := VStr "All"]> ∅;
     MenuSelect.r_transformData := VUndefined |}.

Definition menuPayload : MenuSelect.Payload :=
  {| MenuSelect.refine := VFun 2;
     MenuSelect.items := [ {| label := "Apple"; item_value := "Apple";
                              count := 12; isRefined := false |} ];
     MenuSelect.canRefine := VBool true;
     MenuSelect.instantSearchInstance :=
       {| MenuSelect.templatesConfig := VUndefined |} |}.

(** The templates of the spec's example. *)
Definition userTemplates : gmap string value :=
  <["seeAllOptions" := VStr "All"]> ∅.

Definition resolvedTemplates : gmap string value :=
  <["item" := VStr "DEFAULT_ITEM"]> (<["seeAllOptions" := VStr "All"]> ∅).

Definition menuOptionsWith (templates : option (gmap string value))
  : MenuSelect.Options :=
  {| MenuSelect.container := VElem 1;
     MenuSelect.attribute := VStr "brand";
     MenuSelect.sortBy := VUndefined;
     MenuSelect.limit := VUndefined;
     MenuSelect.cssClasses := ArgAbsent;
     MenuSelect.templates := templates;
     MenuSelect.transformData := VUndefined;
     MenuSelect.transformItems := VUndefined |}.

(** The factory's first half, the first call of the renderer, and a
    read of what it stored. *)
Definition firstRender (o : MenuSelect.Options) : M (option TemplateProps) :=
  let! p := @MenuSelect.specialize lib acceptingMenu o in
  do! @MenuSelect.renderer lib acceptingMenu p menuPayload true in
  get_templateProps (MenuSelect.r_renderState p).

(** The message of the sample generator for a missing [container]. *)
Definition requiredMessage : string :=
  documentationMessage "search-box" "The `container` option is required.".

(** A search box whose default templates are those of the spec's
    example. *)
Definition exampleSearchBox : @SearchBox.Imports lib :=
  {| SearchBox.connectSearchBox := fun _ _ _ => ret ("searchBox" : @Widget lib);
     SearchBox.defaultTemplates := menuTemplates;
     SearchBox.createDocumentationLink := documentationLink;
     SearchBox.createDocumentationMessageGenerator := documentationMessage |}.

Definition searchOptionsWith (templates : option (gmap string value))
  : SearchBox.Options :=
  {| SearchBox.container := VElem 1;
     SearchBox.placeholder := VUndefined;
     SearchBox.cssClasses := ArgAbsent;
     SearchBox.autofocus := VUndefined;
     SearchBox.searchAsYouType := VUndefined;
     SearchBox.showReset := VUndefined;
     SearchBox.showSubmit := VUndefined;
     SearchBox.showLoadingIndicator := VUndefined;
     SearchBox.queryHook := VUndefined;
     SearchBox.templates := templates |}.

(** The templates the example search box closes its renderer over. *)
Definition searchResolved (o : SearchBox.Options) : M (gmap string value) :=
  let! p := @SearchBox.specialize lib exampleSearchBox o in
  ret (SearchBox.r_templates p).

(** Overrides with a duplicate of the builder's token, an array with a
    repeated and an empty token, and a slot no widget has. *)
Definition styledClasses : gmap string classArg :=
  <["root" := ClsString "ais-SearchBox"]>
  (<["submit" := ClsArray ["a"; ""; "b"; "a"]]>
  (<["noRefinementRoot" := ClsString "empty"]>
  (<["typo" := ClsString "mine"]> ∅))).

Definition searchOptionsStyled (container : value) : SearchBox.Options :=
  {| SearchBox.container := container;
     SearchBox.placeholder := VUndefined;
     SearchBox.cssClasses := ArgObj styledClasses;
     SearchBox.autofocus := VUndefined;
     SearchBox.searchAsYouType := VUndefined;
     SearchBox.showReset := VUndefined;
     SearchBox.showSubmit := VUndefined;
     SearchBox.showLoadingIndicator := VUndefined;
     SearchBox.queryHook := VUndefined;
     SearchBox.templates := None |}.

Definition searchStyled : SearchBox.RendererParams :=
  {| SearchBox.r_containerNode := 1;
     SearchBox.r_cssClasses := @SearchBox.build_cssClasses lib styledClasses;
     SearchBox.r_placeholder := VStr "";
     SearchBox.r_templates := SearchBox.merge_templates searchTemplates None;
     SearchBox.r_autofocus := VBool false;
     SearchBox.r_searchAsYouType := VBool true;
     SearchBox.r_showReset := VBool true;
     SearchBox.r_showSubmit := VBool true;
     SearchBox.r_showLoadingIndicator := VBool true |}.

Definition menuOptionsStyled : MenuSelect.Options :=
  {| MenuSelect.container := VElem 1;
     MenuSelect.attribute := VStr "brand";
     MenuSelect.sortBy := VUndefined;
     MenuSelect.limit := VUndefined;
     MenuSelect.cssClasses := ArgObj styledClasses;
     MenuSelect.templates := None;
     MenuSelect.transformData := VUndefined;
     MenuSelect.transformItems := VUndefined |}.

Definition menuStyled : MenuSelect.RendererParams :=
  {| MenuSelect.r_containerNode := 1;
     MenuSelect.r_cssClasses := @MenuSelect.build_cssClasses lib styledClasses;
     MenuSelect.r_renderState := 0;
     MenuSelect.r_templates := menuTemplates;
     MenuSelect.r_transformData := VUndefined |}.

(** Options whose [cssClasses] is [null]. *)
Definition menuOptionsNull : MenuSelect.Options :=
  {| MenuSelect.container := VStr "#q";
     MenuSelect.attribute := VStr "brand";
     MenuSelect.sortBy := VUndefined;
     MenuSelect.limit := VUndefined;
     MenuSelect.cssClasses := ArgNull;
     MenuSelect.templates := None;
     MenuSelect.transformData := VUndefined;
     MenuSelect.transformItems := VUndefined |}.

Definition searchOptionsNull : SearchBox.Options :=
  {| SearchBox.container := VElem 1;
     SearchBox.placeholder := VUndefined;
     SearchBox.cssClasses := ArgNull;
     SearchBox.autofocus := VStr "yes";
     SearchBox.searchAsYouType := VUndefined;
     SearchBox.showReset := VUndefined;
     SearchBox.showSubmit := VUndefined;
     SearchBox.showLoadingIndicator := VUndefined;
     SearchBox.queryHook := VUndefined;
     SearchBox.templates := None |}.

(** The sample world after a selector was looked up. *)
Definition queried (selector : string) : World :=
  {| dom := page; heap := []; log := [EvQuerySelector selector] |}.

(** What [menuSelect] closes the renderer over for the container [div],
    the attribute [brand] and no other option, with the render state at
    [l]. *)
Definition menuSpecialized (l : loc) : MenuSelect.RendererParams :=
  {| MenuSelect.r_containerNode := 1;
     MenuSelect.r_cssClasses := @MenuSelect.build_cssClasses lib ∅;
     MenuSelect.r_renderState := l;
     MenuSelect.r_templates := menuTemplates;
     MenuSelect.r_transformData := VUndefined |}.

(** A world in which two [renderState] objects have been allocated. *)
Definition world2 : World :=
  {| dom := page; heap := [emptyRenderState; emptyRenderState]; log := [] |}.

(** Three calls of a renderer, the second one flagged as the first
    rendering. *)
Definition menuCalls : list (MenuSelect.Payload * bool) :=
  [(menuPayload, false); (menuPayload, true); (menuPayload, false)].

(** A world in which one [renderState] object has been allocated. *)
Definition world1 : World :=
  {| dom := page; heap := [emptyRenderState]; log := [] |}.

End Sample.

(** * Properties *)

(** ** The monad *)

Lemma bind_returned {A B} (c : M A) (k : A -> M B) w a w' :
  c w = (Returned a, w') -> bind c k w = k a w'.
Proof. intros Hc. unfold bind. by rewrite Hc. Qed.

Lemma bind_threw {A B} (c : M A) (k : A -> M B) w e w' :
  c w = (Threw e, w') -> bind c k w = (Threw e, w').
Proof. intros Hc. unfold bind. by rewrite Hc. Qed.

Lemma read_cssClasses_given a w :
  a <> ArgNull -> read_cssClasses a w = (Returned (overrides_of a), w).
Proof. by destruct a. Qed.

Lemma read_cssClasses_null w :
  read_cssClasses ArgNull w = (Threw null_property_error, w).
Proof. reflexivity. Qed.

Lemma read_cssClasses_returned a u w w' :
  read_cssClasses a w = (Returned u, w') ->
  a <> ArgNull /\ u = overrides_of a /\ w' = w.
Proof. destruct a; [| discriminate |]; intros [= <- <-]; done. Qed.

Lemma count_events_app p t1 t2 :
  count_events p (t1 ++ t2) = count_events p t1 + count_events p t2.
Proof. induction t1 as [|e t1 IH]; simpl; [done | rewrite IH; lia]. Qed.

(** ** The DOM store *)

Lemma detach_lookup c d n :
  detach c d !! n
  = (fun y => if bool_decide (n = c) then orphan y else y) <$> d !! n.
Proof.
  unfold detach. destruct (d !! c) as [y|] eqn:Hc.
  - case_bool_decide as Hn.
    + subst n. rewrite Hc. simpl.
      rewrite list_lookup_insert_eq; [done | by eapply lookup_lt_Some].
    + rewrite list_lookup_insert_ne; [| congruence]. destruct (d !! n); reflexivity.
  - case_bool_decide as Hn.
    + subst n. by rewrite Hc.
    + destruct (d !! n); reflexivity.
Qed.

Lemma foldr_detach_lookup l d n :
  foldr detach d l !! n
  = (fun y => if bool_decide (n ∈ l) then orphan y else y) <$> d !! n.
Proof.
  induction l as [|c l IH]; simpl.
  - destruct (d !! n); reflexivity.
  - rewrite detach_lookup, IH. destruct (d !! n) as [y|]; simpl; [| done].
    f_equal. destruct (decide (n = c)) as [->|Hne].
    + rewrite bool_decide_eq_true_2 by done.
      rewrite (bool_decide_eq_true_2 (c ∈ c :: l)) by set_solver.
      by destruct (bool_decide (c ∈ l)).
    + rewrite bool_decide_eq_false_2 by done.
      rewrite (bool_decide_ext (n ∈ c :: l) (n ∈ l)); [done |].
      rewrite elem_of_cons. split; [intros [Heq | Hin]; [congruence | done] | by right].
Qed.

Lemma set_childNodes_lookup n l d m :
  set_childNodes n l d !! m
  = (fun x => if bool_decide (m = n) then with_children l x else x) <$> d !! m.
Proof.
  unfold set_childNodes. destruct (d !! n) as [x|] eqn:Hn.
  - case_bool_decide as Hm.
    + subst m. rewrite Hn. simpl.
      rewrite list_lookup_insert_eq; [done | by eapply lookup_lt_Some].
    + rewrite list_lookup_insert_ne; [| congruence]. destruct (d !! m); reflexivity.
  - case_bool_decide as Hm.
    + subst m. by rewrite Hn.
    + destruct (d !! m); reflexivity.
Qed.

Lemma dom_wfb_node d n x :
  dom_wfb d = true -> d !! n = Some x -> node_wfb d n x = true.
Proof.
  unfold dom_wfb. rewrite forallb_forall. intros Hwf Hn.
  apply (Hwf (n, x)). apply list_elem_of_In, list_elem_of_lookup.
  exists n. by rewrite list_lookup_imap, Hn.
Qed.

Lemma wf_not_own_child d n x :
  dom_wfb d = true -> d !! n = Some x -> n ∉ childNodes x.
Proof.
  intros Hwf Hn Hin. pose proof (dom_wfb_node _ _ _ Hwf Hn) as Hx.
  unfold node_wfb in Hx. apply andb_prop in Hx as [Hx Hkids].
  apply andb_prop in Hx as [Hself _].
  rewrite forallb_forall in Hkids.
  specialize (Hkids n (proj1 (list_elem_of_In _ _) Hin)).
  rewrite Hn in Hkids. apply bool_decide_eq_true in Hkids.
  apply negb_true_iff, bool_decide_eq_false in Hself. done.
Qed.

Lemma wf_child_exists d n x c :
  dom_wfb d = true -> d !! n = Some x -> c ∈ childNodes x ->
  exists y, d !! c = Some y.
Proof.
  intros Hwf Hn Hin. pose proof (dom_wfb_node _ _ _ Hwf Hn) as Hx.
  unfold node_wfb in Hx. apply andb_prop in Hx as [_ Hkids].
  rewrite forallb_forall in Hkids.
  specialize (Hkids c (proj1 (list_elem_of_In _ _) Hin)).
  destruct (d !! c) as [y|]; [by exists y | done].
Qed.

Lemma wf_parent d n x p :
  dom_wfb d = true -> d !! n = Some x -> parentNode x = Some p ->
  p <> n /\ exists y, d !! p = Some y /\ n ∈ childNodes y.
Proof.
  intros Hwf Hn Hp. pose proof (dom_wfb_node _ _ _ Hwf Hn) as Hx.
  unfold node_wfb in Hx. apply andb_prop in Hx as [Hx _].
  apply andb_prop in Hx as [Hself Hpar].
  apply negb_true_iff, bool_decide_eq_false in Hself.
  rewrite Hp in Hpar, Hself. split; [congruence |].
  destruct (d !! p) as [y|]; [| done].
  exists y. split; [done |]. by apply bool_decide_eq_true in Hpar.
Qed.

(** What the teardown function does to the world. *)
Lemma disposer_run n w :
  SearchBox.disposer n w
  = (Returned tt,
     match dom w !! n with
     | Some x =>
         {| dom := set_childNodes n [] (foldr detach (dom w) (childNodes x));
            heap := heap w; log := log w |}
     | None => w
     end).
Proof.
  unfold SearchBox.disposer, bind, createRange, ret, selectNodeContents,
    deleteContents, node_length. simpl.
  destruct (dom w !! n) as [x|] eqn:Hn; [| done].
  rewrite Nat.sub_0_r, drop_0, firstn_all, drop_all. simpl. done.
Qed.

Lemma set_childNodes_length n l d : length (set_childNodes n l d) = length d.
Proof. unfold set_childNodes. destruct (d !! n); [apply length_insert | done]. Qed.

Lemma foldr_detach_length l d : length (foldr detach d l) = length d.
Proof.
  induction l as [|c l IH]; simpl; [done |].
  unfold detach at 1. destruct (_ !! c); [by rewrite length_insert | done].
Qed.

(** ** The disposer *)

(** C6. Calling the teardown function returned by [disposer] leaves the
    container node without children, detaches every former child from it,
    and leaves the container itself where it was: its parent pointer is
    unchanged and its parent still lists it.  Nothing else of the world
    changes. *)
Theorem disposer_clears_container (w : World) (n : node) (x : DomNode) :
  dom_wfb (dom w) = true ->
  dom w !! n = Some x ->
  exists w',
    SearchBox.disposer n w = (Returned tt, w')
    /\ dom w' !! n = Some (with_children [] x)
    /\ (forall c, c ∈ childNodes x ->
          exists y, dom w' !! c = Some y /\ parentNode y = None)
    /\ (forall p, parentNode x = Some p ->
          exists y, dom w' !! p = Some y /\ n ∈ childNodes y)
    /\ length (dom w') = length (dom w)
    /\ heap w' = heap w
    /\ log w' = log w.
Proof.
  intros Hwf Hn. rewrite disposer_run, Hn. eexists. split; [reflexivity |].
  simpl. pose proof (wf_not_own_child _ _ _ Hwf Hn) as Hself.
  repeat split.
  - rewrite set_childNodes_lookup, foldr_detach_lookup, Hn. simpl.
    rewrite bool_decide_eq_true_2 by done.
    by rewrite bool_decide_eq_false_2 by done.
  - intros c Hc. destruct (wf_child_exists _ _ _ _ Hwf Hn Hc) as [y Hy].
    exists (orphan y). rewrite set_childNodes_lookup, foldr_detach_lookup, Hy.
    simpl. rewrite (bool_decide_eq_true_2 (c ∈ childNodes x)) by done.
    rewrite bool_decide_eq_false_2; [done |]. intros ->. done.
  - intros p Hp. destruct (wf_parent _ _ _ _ Hwf Hn Hp) as [Hne [y [Hy Hin]]].
    rewrite set_childNodes_lookup, foldr_detach_lookup, Hy. simpl.
    rewrite bool_decide_eq_false_2 by done.
    destruct (bool_decide (p ∈ childNodes x)); eexists; split; done.
  - by rewrite set_childNodes_length, foldr_detach_length.
Qed.

Lemma disposer_clears_container_witness :
  dom_wfb (dom Sample.world) = true
  /\ exists w',
       SearchBox.disposer 1 Sample.world = (Returned tt, w')
       /\ dom w' !! 1 = Some {| tagName := "DIV"; parentNode := Some 0;
                                childNodes := [] |}
       /\ (forall c, c ∈ [2; 3] ->
             exists y, dom w' !! c = Some y /\ parentNode y = None)
       /\ (forall p, Some 0 = Some p ->
             exists y, dom w' !! p = Some y /\ 1 ∈ childNodes y)
       /\ length (dom w') = 6
       /\ heap w' = []
       /\ log w' = [].
Proof.
  split; [reflexivity |].
  apply (disposer_clears_container Sample.world 1
           {| tagName := "DIV"; parentNode := Some 0; childNodes := [2; 3] |});
    reflexivity.
Defined.

(** C10. The teardown function is idempotent: it never throws, and run on
    the world it has left behind it returns again and changes nothing; the
    container has no children after the first run. *)
Theorem disposer_idempotent (w : World) (n : node) :
  let w1 := (SearchBox.disposer n w).2 in
  (SearchBox.disposer n w).1 = Returned tt
  /\ SearchBox.disposer n w1 = (Returned tt, w1)
  /\ node_length (dom w1) n = 0.
Proof.
  rewrite disposer_run. simpl. split; [done |].
  rewrite disposer_run. unfold node_length.
  destruct (dom w !! n) as [x|] eqn:Hn; simpl; [| by rewrite Hn].
  rewrite set_childNodes_lookup, foldr_detach_lookup, Hn. simpl.
  rewrite bool_decide_eq_true_2 by done. simpl. split; [| done].
  f_equal. f_equal.
  unfold set_childNodes at 1.
  rewrite set_childNodes_lookup, foldr_detach_lookup, Hn. simpl.
  rewrite bool_decide_eq_true_2 by done.
  apply list_insert_id.
  rewrite set_childNodes_lookup, foldr_detach_lookup, Hn. simpl.
  by rewrite bool_decide_eq_true_2 by done.
Qed.

(** ** The factories: option validation *)

Section Factories.
Context {L : Lib} {MI : @MenuSelect.Imports L} {SI : @SearchBox.Imports L}.

Lemma searchBox_specialize_missing o w :
  truthy (SearchBox.container o) = false ->
  SearchBox.specialize o w
  = (Threw (Error (SearchBox.withUsage SearchBox.required_message)), w).
Proof. intros Hc. unfold SearchBox.specialize. by rewrite Hc. Qed.

Lemma menuSelect_specialize_missing o w :
  truthy (MenuSelect.container o) = false
  \/ truthy (MenuSelect.attribute o) = false ->
  MenuSelect.specialize o w = (Threw (Error MenuSelect.usage), w).
Proof.
  intros Hc. unfold MenuSelect.specialize.
  destruct Hc as [-> | ->]; simpl; [done |].
  by rewrite orb_true_r.
Qed.

(** What a run of a factory's first half that returned has gone through. *)
Lemma menuSelect_specialize_inv o w p w1 :
  MenuSelect.specialize o w = (Returned p, w1) ->
  exists n w0,
    truthy (MenuSelect.container o) = true
    /\ truthy (MenuSelect.attribute o) = true
    /\ getContainerNode (MenuSelect.container o) w = (Returned n, w0)
    /\ MenuSelect.cssClasses o <> ArgNull
    /\ p = {| MenuSelect.r_containerNode := n;
              MenuSelect.r_cssClasses :=
                MenuSelect.build_cssClasses
                  (overrides_of (MenuSelect.cssClasses o));
              MenuSelect.r_renderState := length (heap w0);
              MenuSelect.r_templates :=
                default MenuSelect.defaultTemplates (MenuSelect.templates o);
              MenuSelect.r_transformData := MenuSelect.transformData o |}
    /\ w1 = {| dom := dom w0; heap := heap w0 ++ [emptyRenderState];
               log := log w0 |}.
Proof.
  unfold MenuSelect.specialize.
  destruct (truthy (MenuSelect.container o)); [| discriminate].
  destruct (truthy (MenuSelect.attribute o)); [| discriminate]. simpl.
  unfold bind at 1.
  destruct (getContainerNode (MenuSelect.container o) w) as [[n|e] w0];
    [| discriminate].
  unfold bind at 1.
  destruct (read_cssClasses (MenuSelect.cssClasses o) w0) as [[u|e] w0'] eqn:Hr;
    [| discriminate].
  apply read_cssClasses_returned in Hr as (Hnull & -> & ->).
  unfold bind, alloc_renderState, ret. intros [= <- <-].
  exists n, w0. repeat split; done.
Qed.

Lemma searchBox_specialize_inv o w p w1 :
  SearchBox.specialize o w = (Returned p, w1) ->
  exists n w0,
    truthy (SearchBox.container o) = true
    /\ getContainerNode (SearchBox.container o) w = (Returned n, w0)
    /\ default "" (tagName <$> dom w0 !! n) <> "INPUT"
    /\ SearchBox.cssClasses o <> ArgNull
    /\ p = {| SearchBox.r_containerNode := n;
              SearchBox.r_cssClasses :=
                SearchBox.build_cssClasses
                  (overrides_of (SearchBox.cssClasses o));
              SearchBox.r_placeholder :=
                param_default (VStr "") (SearchBox.placeholder o);
              SearchBox.r_templates :=
                SearchBox.merge_templates SearchBox.defaultTemplates
                                          (SearchBox.templates o);
              SearchBox.r_autofocus :=
                param_default (VBool false) (SearchBox.autofocus o);
              SearchBox.r_searchAsYouType :=
                param_default (VBool true) (SearchBox.searchAsYouType o);
              SearchBox.r_showReset :=
                param_default (VBool true) (SearchBox.showReset o);
              SearchBox.r_showSubmit :=
                param_default (VBool true) (SearchBox.showSubmit o);
              SearchBox.r_showLoadingIndicator :=
                param_default (VBool true) (SearchBox.showLoadingIndicator o) |}
    /\ w1 = {| dom := dom w0; heap := heap w0;
               log := log w0
                      ++ [EvWarning
                            (is_boolean (param_default (VBool false)
                                           (SearchBox.autofocus o)))
                            SearchBox.autofocus_message] |}.
Proof.
  unfold SearchBox.specialize.
  destruct (truthy (SearchBox.container o)); [| discriminate]. simpl.
  unfold bind at 1.
  destruct (getContainerNode (SearchBox.container o) w) as [[n|e] w0];
    [| discriminate].
  unfold bind at 1, tagName_of.
  destruct (String.eqb_spec (default "" (tagName <$> dom w0 !! n)) "INPUT")
    as [|Htag]; [discriminate |].
  unfold bind at 1, warning, emit. unfold bind at 1.
  destruct (read_cssClasses (SearchBox.cssClasses o) _) as [[u|e] w0'] eqn:Hr;
    [| discriminate].
  apply read_cssClasses_returned in Hr as (Hnull & -> & ->).
  unfold ret. intros [= <- <-].
  exists n, w0. repeat split; done.
Qed.

(** C2, as the code has it.  A configuration whose [container] is missing
    (or falsy) makes [menuSelect] throw an error whose message is the
    usage synopsis, which names every option with the defaults of
    [sortBy] and [limit]; [menuSelect] does the same when [attribute] is
    missing.  [searchBox] throws an error whose message is the sentence
    about the required [container] as the documentation-message generator
    for ['search-box'] returns it; the search-box source holds no usage
    synopsis of its own.  In each case the world is left as it was: no DOM
    node is looked up or changed. *)
Theorem missing_option_errors :
  (forall o w,
      truthy (SearchBox.container o) = false ->
      SearchBox.searchBox (ArgObj o) w
      = (Threw (Error (SearchBox.createDocumentationMessageGenerator
                         "search-box" "The `container` option is required.")),
         w))
  /\ (forall o w,
        truthy (MenuSelect.container o) = false
        \/ truthy (MenuSelect.attribute o) = false ->
        MenuSelect.menuSelect (ArgObj o) w
        = (Threw (Error MenuSelect.usage), w))
  /\ synopsis_of MenuSelect.option_names MenuSelect.usage = true
  /\ mentions "sortBy=['name:asc']" MenuSelect.usage = true
  /\ mentions "limit=10" MenuSelect.usage = true.
Proof.
  split; [| split; [| split; [| split]]].
  - intros o w Hc. unfold SearchBox.searchBox.
    by rewrite (bind_threw _ _ _ _ _ (searchBox_specialize_missing o w Hc)).
  - intros o w Hc. unfold MenuSelect.menuSelect.
    by rewrite (bind_threw _ _ _ _ _ (menuSelect_specialize_missing o w Hc)).
  - vm_compute. reflexivity.
  - vm_compute. reflexivity.
  - vm_compute. reflexivity.
Qed.

(** C9. [searchBox()] is [searchBox({})]: the parameter defaults to the
    empty options object and the call throws the container-required
    error, not a destructuring [TypeError]. *)
Theorem searchBox_no_argument (w : World) :
  SearchBox.searchBox ArgAbsent w
  = SearchBox.searchBox (ArgObj SearchBox.emptyOptions) w
  /\ SearchBox.searchBox ArgAbsent w
     = (Threw (Error (SearchBox.withUsage "The `container` option is required.")), w).
Proof.
  split; [reflexivity |].
  unfold SearchBox.searchBox.
  by rewrite (bind_threw _ _ _ _ _
                (searchBox_specialize_missing SearchBox.emptyOptions w eq_refl)).
Qed.

(** [menuSelect] has no such default: called with nothing it fails on
    destructuring. *)
Lemma menuSelect_no_argument (w : World) :
  MenuSelect.menuSelect ArgAbsent w = (Threw MenuSelect.destructure_error, w).
Proof. reflexivity. Qed.

(** C4. A container handle whose element is an [INPUT] makes [searchBox]
    throw the error dedicated to it, and the world is left as it was:
    the [warning] call that checks [autofocus] has not happened, and the
    connector was not reached. *)
Theorem searchBox_rejects_input o n x w :
  SearchBox.container o = VElem n ->
  dom w !! n = Some x ->
  tagName x = "INPUT" ->
  SearchBox.searchBox (ArgObj o) w
  = (Threw (Error SearchBox.input_message), w).
Proof.
  intros Hc Hn Htag. unfold SearchBox.searchBox, SearchBox.specialize.
  rewrite Hc. simpl. unfold bind, ret, tagName_of. rewrite Hn. simpl.
  by rewrite Htag.
Qed.

(** With any other element the [warning] call is the next effect. *)
Lemma searchBox_specialize_warns o n x w :
  SearchBox.container o = VElem n ->
  dom w !! n = Some x ->
  tagName x <> "INPUT" ->
  SearchBox.cssClasses o <> ArgNull ->
  exists p,
    SearchBox.specialize o w
    = (Returned p,
       {| dom := dom w; heap := heap w;
          log := log w ++ [EvWarning
                             (is_boolean (param_default (VBool false)
                                            (SearchBox.autofocus o)))
                             SearchBox.autofocus_message] |})
    /\ SearchBox.r_containerNode p = n
    /\ SearchBox.r_templates p = SearchBox.resolve_templates (SearchBox.templates o).
Proof.
  intros Hc Hn Htag Hcss. unfold SearchBox.specialize.
  rewrite Hc. simpl. unfold bind, ret, tagName_of, warning, emit.
  rewrite Hn. simpl.
  destruct (String.eqb_spec (tagName x) "INPUT") as [|_]; [done |].
  rewrite (read_cssClasses_given _ _ Hcss).
  eexists. split; [reflexivity |]. done.
Qed.
End Factories.

Lemma missing_option_errors_witness :
  @SearchBox.searchBox Sample.lib Sample.acceptingSearchBox
     (ArgObj (Sample.searchOptions VUndefined VUndefined)) Sample.world
  = (Threw (Error "The `container` option is required.

See documentation: https://www.algolia.com/doc/api-reference/widgets/search-box/js/"),
     Sample.world)
  /\ @MenuSelect.menuSelect Sample.lib Sample.acceptingMenu
       (ArgObj (Sample.menuOptions (VStr "#q") VUndefined)) Sample.world
     = (Threw (Error MenuSelect.usage), Sample.world).
Proof.
  split.
  - apply (proj1 (@missing_option_errors
                    Sample.lib Sample.acceptingMenu Sample.acceptingSearchBox)).
    reflexivity.
  - apply (proj1 (proj2 (@missing_option_errors
                           Sample.lib Sample.acceptingMenu
                           Sample.acceptingSearchBox))).
    right. reflexivity.
Defined.

(** C2, as stated, fails for [searchBox]: with a generator that returns
    the message followed by a link to the documentation, the error thrown
    for a missing [container] names the [container] option and none of the
    other options of the factory, so it is no usage synopsis. *)
Lemma searchBox_missing_container_no_synopsis :
  @SearchBox.searchBox Sample.lib Sample.acceptingSearchBox
     (ArgObj (Sample.searchOptions VUndefined VUndefined)) Sample.world
  = (Threw (Error Sample.requiredMessage), Sample.world)
  /\ Sample.requiredMessage
     = "The `container` option is required.

See documentation: https://www.algolia.com/doc/api-reference/widgets/search-box/js/"
  /\ synopsis_of SearchBox.option_names Sample.requiredMessage = false
  /\ mentions "placeholder" Sample.requiredMessage = false
  /\ mentions "Usage" Sample.requiredMessage = false.
Proof.
  split; [reflexivity |]. split; [reflexivity |].
  split; [vm_compute; reflexivity |].
  split; vm_compute; reflexivity.
Qed.

Lemma searchBox_rejects_input_witness :
  @SearchBox.searchBox Sample.lib Sample.acceptingSearchBox
     (ArgObj (Sample.searchOptions (VElem 5) (VStr "yes"))) Sample.world
  = (Threw (Error (@SearchBox.input_message Sample.lib Sample.acceptingSearchBox)),
     Sample.world).
Proof.
  apply (@searchBox_rejects_input Sample.lib Sample.acceptingSearchBox
           (Sample.searchOptions (VElem 5) (VStr "yes")) 5
           {| tagName := "INPUT"; parentNode := Some 0; childNodes := [] |});
    reflexivity.
Defined.

(** ** The factories: exceptions of the connector *)

Section ConnectorErrors.
Context {L : Lib} {MI : @MenuSelect.Imports L} {SI : @SearchBox.Imports L}.

(** C3, as the code has it.  An exception raised by [connectMenu] while
    [menuSelect] builds the widget is caught and replaced by the usage
    error, the one a missing required option gets.  [searchBox] has no
    handler: an exception raised by [connectSearchBox] reaches the
    caller as it was thrown. *)
Theorem connector_exception_surface :
  (forall o w p w1 e w2,
      MenuSelect.specialize o w = (Returned p, w1) ->
      MenuSelect.connectMenu (MenuSelect.renderer p)
                             (MenuSelect.widgetParams o) w1 = (Threw e, w2) ->
      MenuSelect.menuSelect (ArgObj o) w = (Threw (Error MenuSelect.usage), w2))
  /\ (forall o w p w1 e w2,
        SearchBox.specialize o w = (Returned p, w1) ->
        SearchBox.connectSearchBox
          (SearchBox.renderFn p)
          (SearchBox.disposer (SearchBox.r_containerNode p))
          {| SearchBox.wp_queryHook := SearchBox.queryHook o |} w1
        = (Threw e, w2) ->
        SearchBox.searchBox (ArgObj o) w = (Threw e, w2)).
Proof.
  split; intros o w p w1 e w2 Hs Hc.
  - unfold MenuSelect.menuSelect.
    rewrite (bind_returned _ _ _ _ _ Hs). unfold try_catch. by rewrite Hc.
  - unfold SearchBox.searchBox.
    by rewrite (bind_returned _ _ _ _ _ Hs).
Qed.
End ConnectorErrors.

Lemma connector_exception_surface_witness :
  @MenuSelect.menuSelect Sample.lib Sample.rejectingMenu
     (ArgObj (Sample.menuOptions (VElem 1) (VStr "brand"))) Sample.world
  = (Threw (Error MenuSelect.usage), Sample.world1)
  /\ @SearchBox.searchBox Sample.lib Sample.rejectingSearchBox
       (ArgObj (Sample.searchOptions (VElem 1) VUndefined)) Sample.world
     = (Threw (Error "The `queryHook` option is not valid."),
        {| dom := Sample.page; heap := [];
           log := [EvWarning true SearchBox.autofocus_message] |}).
Proof.
  split.
  - apply (proj1 (@connector_exception_surface
                    Sample.lib Sample.rejectingMenu Sample.rejectingSearchBox)
             (Sample.menuOptions (VElem 1) (VStr "brand")) Sample.world
             {| MenuSelect.r_containerNode := 1;
                MenuSelect.r_cssClasses :=
                  @MenuSelect.build_cssClasses Sample.lib ∅;
                MenuSelect.r_renderState := 0;
                MenuSelect.r_templates := Sample.menuTemplates;
                MenuSelect.r_transformData := VUndefined |}
             Sample.world1
             (Error "The `attribute` option is not valid.")
             Sample.world1);
      reflexivity.
  - apply (proj2 (@connector_exception_surface
                    Sample.lib Sample.rejectingMenu Sample.rejectingSearchBox)
             (Sample.searchOptions (VElem 1) VUndefined) Sample.world
             (Sample.searchSpecialized VUndefined)
             {| dom := Sample.page; heap := [];
                log := [EvWarning true SearchBox.autofocus_message] |}
             (Error "The `queryHook` option is not valid.")
             {| dom := Sample.page; heap := [];
                log := [EvWarning true SearchBox.autofocus_message] |});
      reflexivity.
Defined.

(** C3, as stated, fails for [searchBox]: with a connector that rejects
    its parameters the caller sees the connector's own error, not the
    error a missing [container] gets. *)
Lemma searchBox_connector_exception_escapes :
  (@SearchBox.searchBox Sample.lib Sample.rejectingSearchBox
     (ArgObj (Sample.searchOptions (VElem 1) VUndefined)) Sample.world).1
  = Threw (Error "The `queryHook` option is not valid.")
  /\ (@SearchBox.searchBox Sample.lib Sample.rejectingSearchBox
        (ArgObj (Sample.searchOptions VUndefined VUndefined)) Sample.world).1
     = Threw (Error "The `container` option is required.

See documentation: https://www.algolia.com/doc/api-reference/widgets/search-box/js/")
  /\ (@SearchBox.searchBox Sample.lib Sample.rejectingSearchBox
        (ArgObj (Sample.searchOptions (VElem 1) VUndefined)) Sample.world).1
     <> (@SearchBox.searchBox Sample.lib Sample.rejectingSearchBox
          (ArgObj (Sample.searchOptions VUndefined VUndefined)) Sample.world).1.
Proof. split; [reflexivity | split; [reflexivity | discriminate]]. Qed.

(** ** The renderers *)

Lemma world_eta w : {| dom := dom w; heap := heap w; log := log w ++ [] |} = w.
Proof. destruct w. simpl. by rewrite app_nil_r. Qed.

Lemma count_events_renders_stores l (f : MenuSelect.Payload -> vnode) n rest :
  count_events (is_store l) (map (fun payload => EvRender (f payload) n) rest) = 0.
Proof. induction rest as [|a rest IH]; simpl; [done | by rewrite IH]. Qed.

Lemma stored_lookup (h : list RenderState) l rs v :
  h !! l = Some rs -> <[l := v]> h !! l = Some v.
Proof. intros Hl. apply list_lookup_insert_eq. by eapply lookup_lt_Some. Qed.

Section Rendering.
Context {L : Lib} {MI : @MenuSelect.Imports L}.

Lemma getContainerNode_frame c w r w' :
  getContainerNode c w = (r, w') -> heap w' = heap w /\ dom w' = dom w.
Proof.
  unfold getContainerNode, bind, emit, ret, throw.
  destruct c; try (intros [= <- <-]; done).
  simpl. destruct (querySelector (dom w) s); intros [= <- <-]; done.
Qed.

(** What a successful run of the factory's first half leaves behind. *)
Lemma menuSelect_specialize_fresh o w p w1 :
  MenuSelect.specialize o w = (Returned p, w1) ->
  MenuSelect.r_renderState p = length (heap w)
  /\ heap w1 = heap w ++ [emptyRenderState].
Proof.
  unfold MenuSelect.specialize.
  destruct (_ || _); [discriminate |].
  unfold bind at 1.
  destruct (getContainerNode (MenuSelect.container o) w) as [[n|e] w0] eqn:Hg;
    [| discriminate].
  apply getContainerNode_frame in Hg as [Hh _].
  unfold bind at 1.
  destruct (read_cssClasses (MenuSelect.cssClasses o) w0) as [[u|e] w0'] eqn:Hr;
    [| discriminate].
  apply read_cssClasses_returned in Hr as (_ & _ & ->).
  unfold bind, alloc_renderState, ret. intros [= <- <-]. simpl.
  by rewrite Hh.
Qed.

Lemma menuSelect_later_renders p tp rest : forall w,
  heap w !! MenuSelect.r_renderState p = Some {| templateProps := Some tp |} ->
  foldr (fun payload k => do! MenuSelect.renderer p payload false in k)
        (ret tt) rest w
  = (Returned tt,
     {| dom := dom w; heap := heap w;
        log := log w ++ map (fun payload =>
                               EvRender (MenuSelect.element p payload (Some tp))
                                        (MenuSelect.r_containerNode p)) rest |}).
Proof.
  induction rest as [|a rest IH]; intros w Hl; simpl.
  - unfold ret. by rewrite world_eta.
  - unfold bind at 1. unfold MenuSelect.renderer, bind, get_templateProps,
      render, emit. rewrite Hl. simpl.
    rewrite IH by done. simpl. by rewrite <- app_assoc.
Qed.

(** C7. The [renderState] object is empty, and a fresh object, when the
    factory has created it.  When the connector delivers the flag [true]
    first and [false] on every later call, [templateProps] is assigned
    once, by the first call; the later calls leave it as it is and hand
    the stored value to [render]. *)
Theorem renderState_written_once o w p w1 :
  MenuSelect.specialize o w = (Returned p, w1) ->
  let l := MenuSelect.r_renderState p in
  heap w1 !! l = Some emptyRenderState
  /\ l = length (heap w)
  /\ forall first rest,
       let tp := MenuSelect.prepareTemplateProps
                   (MenuSelect.prepare_args p first) in
       exists w2,
         deliver (MenuSelect.renderer p) first rest w1 = (Returned tt, w2)
         /\ log w2
            = log w1 ++ EvStore l
                :: map (fun payload =>
                          EvRender (MenuSelect.element p payload (Some tp))
                                   (MenuSelect.r_containerNode p)) rest
         /\ stores_to l (log w2) = stores_to l (log w1) + 1
         /\ heap w2 !! l = Some {| templateProps := Some tp |}.
Proof.
  intros Hs l. destruct (menuSelect_specialize_fresh _ _ _ _ Hs) as [Hl Hh].
  assert (Hcell : heap w1 !! l = Some emptyRenderState).
  { subst l. rewrite Hh, Hl. apply list_lookup_middle. done. }
  split; [done |]. split; [done |].
  intros first rest tp.
  assert (Hstored :
            <[l := {| templateProps := Some tp |}]> (heap w1) !! l
            = Some {| templateProps := Some tp |}).
  { apply list_lookup_insert_eq. by eapply lookup_lt_Some. }
  unfold deliver. unfold bind at 1. simpl.
  rewrite (menuSelect_later_renders p tp rest) by exact Hstored.
  eexists. split; [reflexivity |]. simpl.
  split; [by rewrite <- app_assoc |]. split; [| exact Hstored].
  unfold stores_to. rewrite <- app_assoc, !count_events_app. simpl.
  rewrite count_events_renders_stores, Nat.eqb_refl. lia.
Qed.

(** C1, as the code has it.  The menu-select renderer called with
    [isFirstRendering = true] stores the prepared template props in
    [renderState.templateProps] and does not call [render]; called
    afterwards with [false] it calls [render] once, with the stored
    template props.  The search-box renderer keeps no render state and
    does not look at the flag: every call is one call of [render]. *)
Theorem first_render_contract :
  (forall p payload w rs,
      heap w !! MenuSelect.r_renderState p = Some rs ->
      let l := MenuSelect.r_renderState p in
      let tp := MenuSelect.prepareTemplateProps
                  (MenuSelect.prepare_args p payload) in
      exists w1,
        MenuSelect.renderer p payload true w = (Returned tt, w1)
        /\ heap w1 !! l = Some {| templateProps := Some tp |}
        /\ render_calls (log w1) = render_calls (log w)
        /\ dom w1 = dom w
        /\ forall payload' w2,
             heap w2 !! l = heap w1 !! l ->
             exists w3,
               MenuSelect.renderer p payload' false w2 = (Returned tt, w3)
               /\ log w3
                  = log w2 ++ [EvRender (MenuSelect.element p payload' (Some tp))
                                        (MenuSelect.r_containerNode p)]
               /\ render_calls (log w3) = render_calls (log w2) + 1
               /\ heap w3 = heap w2)
  /\ (forall p payload flag w,
        SearchBox.renderFn p payload flag w
        = (Returned tt,
           {| dom := dom w; heap := heap w;
              log := log w ++ [EvRender (SearchBox.element p payload)
                                        (SearchBox.r_containerNode p)] |}))
  /\ (forall p payload flag w,
        let w1 := (SearchBox.renderFn p payload flag w).2 in
        render_calls (log w1) = render_calls (log w) + 1
        /\ heap w1 = heap w).
Proof.
  split; [| split].
  - intros p payload w rs Hl l tp. subst l tp.
    pose proof (stored_lookup (heap w) _ rs
                  {| templateProps :=
                       Some (MenuSelect.prepareTemplateProps
                               (MenuSelect.prepare_args p payload)) |} Hl)
      as Hstored.
    eexists. split; [reflexivity |]. simpl.
    split; [exact Hstored |].
    split; [unfold render_calls; rewrite count_events_app; simpl; lia |].
    split; [done |].
    intros payload' w2 Hw2. simpl in Hw2. rewrite Hstored in Hw2.
    eexists. unfold MenuSelect.renderer, bind, get_templateProps, render, emit.
    rewrite Hw2. simpl. split; [reflexivity |]. simpl.
    split; [done |]. split; [| done].
    unfold render_calls. rewrite count_events_app. simpl. lia.
  - reflexivity.
  - intros p payload flag w. simpl. split; [| done].
    unfold render_calls. rewrite count_events_app. simpl. lia.
Qed.
End Rendering.

Lemma renderState_written_once_witness :
  let p := {| MenuSelect.r_containerNode := 1;
              MenuSelect.r_cssClasses := @MenuSelect.build_cssClasses Sample.lib ∅;
              MenuSelect.r_renderState := 0;
              MenuSelect.r_templates := Sample.menuTemplates;
              MenuSelect.r_transformData := VUndefined |} in
  @MenuSelect.specialize Sample.lib Sample.acceptingMenu
     (Sample.menuOptions (VElem 1) (VStr "brand")) Sample.world
  = (Returned p, Sample.world1)
  /\ heap Sample.world1 !! 0 = Some emptyRenderState
  /\ 0 = length (heap Sample.world)
  /\ forall first rest,
       let tp := MenuSelect.prepareTemplateProps_model
                   (@MenuSelect.prepare_args Sample.lib Sample.acceptingMenu p first) in
       exists w2,
         deliver (@MenuSelect.renderer Sample.lib Sample.acceptingMenu p)
                 first rest Sample.world1 = (Returned tt, w2)
         /\ log w2
            = [] ++ EvStore 0
                :: map (fun payload =>
                          EvRender (MenuSelect.element p payload (Some tp)) 1) rest
         /\ stores_to 0 (log w2) = stores_to 0 [] + 1
         /\ heap w2 !! 0 = Some {| templateProps := Some tp |}.
Proof.
  intros p. split; [reflexivity |].
  apply (@renderState_written_once Sample.lib Sample.acceptingMenu
           (Sample.menuOptions (VElem 1) (VStr "brand")) Sample.world p
           Sample.world1).
  reflexivity.
Defined.

Lemma first_render_contract_witness :
  let p := Sample.menuParams in
  let tp := MenuSelect.prepareTemplateProps_model
              (@MenuSelect.prepare_args Sample.lib Sample.acceptingMenu p
                 Sample.menuPayload) in
  exists w1 w3,
    @MenuSelect.renderer Sample.lib Sample.acceptingMenu p Sample.menuPayload
       true Sample.world1 = (Returned tt, w1)
    /\ heap w1 !! 0 = Some {| templateProps := Some tp |}
    /\ render_calls (log w1) = 0
    /\ @MenuSelect.renderer Sample.lib Sample.acceptingMenu p Sample.menuPayload
         false w1 = (Returned tt, w3)
    /\ log w3 = log w1 ++ [EvRender (MenuSelect.element p Sample.menuPayload
                                        (Some tp)) 1]
    /\ render_calls (log w3) = 1.
Proof.
  intros p tp.
  destruct (proj1 (@first_render_contract Sample.lib Sample.acceptingMenu)
              Sample.menuParams Sample.menuPayload Sample.world1
              emptyRenderState eq_refl)
    as (w1 & Hrun & Hcell & Hcalls & _ & Hlater).
  destruct (Hlater Sample.menuPayload w1 eq_refl)
    as (w3 & Hrun3 & Hlog3 & Hcalls3 & _).
  exists w1, w3. repeat split; try assumption.
  rewrite Hcalls3, Hcalls. reflexivity.
Defined.

(** C1, as stated, fails for the search-box renderer: called with
    [isFirstRendering = true] it calls [render], and there is no render
    state it could populate. *)
Lemma searchBox_first_call_renders :
  let w1 := (SearchBox.renderFn Sample.searchParams Sample.searchPayload true
               Sample.world).2 in
  render_calls (log w1) = 1
  /\ render_calls (log Sample.world) = 0
  /\ heap w1 = [].
Proof. repeat split. Qed.

(** ** Templates *)

Lemma assign_lookup (target source : gmap string value) slot :
  SearchBox.assign target source !! slot
  = match source !! slot with
    | Some v => Some v
    | None => target !! slot
    end.
Proof.
  unfold SearchBox.assign. rewrite lookup_union.
  destruct (source !! slot), (target !! slot); reflexivity.
Qed.

Section Templates.
Context {L : Lib} {SI : @SearchBox.Imports L}.

(** C5. A slot the user-supplied templates define resolves to the user's
    value, any other slot to the default: in the templates the search-box
    factory closes its renderer over, and in the template props the
    menu-select renderer built by the factory stores on its first call.
    With defaults [{ item: 'DEFAULT_ITEM', seeAllOptions: 'DEFAULT_ALL' }]
    and templates [{ seeAllOptions: 'All' }] both resolve to
    [{ item: 'DEFAULT_ITEM', seeAllOptions: 'All' }]. *)
Theorem template_merge :
  (forall o w p w1 slot,
      SearchBox.specialize o w = (Returned p, w1) ->
      SearchBox.r_templates p !! slot
      = match SearchBox.templates o with
        | Some t => match t !! slot with
                    | Some v => Some v
                    | None => SearchBox.defaultTemplates !! slot
                    end
        | None => SearchBox.defaultTemplates !! slot
        end)
  /\ (forall connect defaults o w p w1 payload slot,
        let MI := {| MenuSelect.connectMenu := connect;
                     MenuSelect.defaultTemplates := defaults;
                     MenuSelect.prepareTemplateProps :=
                       MenuSelect.prepareTemplateProps_model |} in
        @MenuSelect.specialize L MI o w = (Returned p, w1) ->
        exists tp,
          heap (@MenuSelect.renderer L MI p payload true w1).2
            !! MenuSelect.r_renderState p
          = Some {| templateProps := Some tp |}
          /\ tp_templates tp !! slot
             = match MenuSelect.templates o with
               | Some t => match t !! slot with
                           | Some v => Some v
                           | None => defaults !! slot
                           end
               | None => defaults !! slot
               end)
  /\ (Sample.searchResolved
        (Sample.searchOptionsWith (Some Sample.userTemplates)) Sample.world).1
     = Returned Sample.resolvedTemplates
  /\ (Sample.firstRender (Sample.menuOptionsWith (Some Sample.userTemplates))
        Sample.world).1
     = Returned (Some {| tp_templates := Sample.resolvedTemplates;
                         tp_defaultTemplates := Sample.menuTemplates;
                         tp_transformData := VUndefined;
                         tp_templatesConfig := VUndefined |})
  /\ (Sample.firstRender (Sample.menuOptionsWith None) Sample.world).1
     = Returned (Some {| tp_templates := Sample.menuTemplates;
                         tp_defaultTemplates := Sample.menuTemplates;
                         tp_transformData := VUndefined;
                         tp_templatesConfig := VUndefined |}).
Proof.
  split; [| split; [| split; [| split]]].
  - intros o w p w1 slot Hs.
    destruct (searchBox_specialize_inv _ _ _ _ Hs)
      as (n & w0 & _ & _ & _ & _ & -> & _).
    simpl. unfold SearchBox.merge_templates.
    rewrite !assign_lookup, lookup_empty.
    destruct (SearchBox.templates o) as [t|]; simpl.
    + destruct (t !! slot), (SearchBox.defaultTemplates !! slot); reflexivity.
    + rewrite lookup_empty.
      destruct (SearchBox.defaultTemplates !! slot); reflexivity.
  - intros connect defaults o w p w1 payload slot MI Hs.
    destruct (menuSelect_specialize_inv _ _ _ _ Hs)
      as (n & w0 & _ & _ & _ & _ & -> & ->).
    eexists. simpl. split.
    + rewrite list_lookup_insert_eq; [reflexivity |].
      rewrite length_app. simpl. lia.
    + simpl. rewrite lookup_union.
      destruct (MenuSelect.templates o) as [t|]; simpl.
      * destruct (t !! slot), (defaults !! slot); reflexivity.
      * destruct (defaults !! slot); reflexivity.
  - vm_compute. reflexivity.
  - vm_compute. reflexivity.
  - vm_compute. reflexivity.
Qed.
End Templates.

Lemma template_merge_witness :
  SearchBox.r_templates (Sample.searchSpecialized VUndefined) !! "reset"
  = Some (VStr "DEFAULT_RESET")
  /\ exists tp,
       heap (@MenuSelect.renderer Sample.lib Sample.acceptingMenu
               (Sample.menuSpecialized 0) Sample.menuPayload true
               Sample.world1).2 !! 0
       = Some {| templateProps := Some tp |}
       /\ tp_templates tp !! "item" = Some (VStr "DEFAULT_ITEM").
Proof.
  split.
  - apply (proj1 (@template_merge Sample.lib Sample.acceptingSearchBox)
             (Sample.searchOptions (VElem 1) VUndefined) Sample.world
             (Sample.searchSpecialized VUndefined)
             {| dom := Sample.page; heap := [];
                log := [EvWarning true SearchBox.autofocus_message] |}
             "reset").
    reflexivity.
  - apply (proj1 (proj2 (@template_merge Sample.lib Sample.acceptingSearchBox))
             (fun _ _ => ret ("menuSelect" : @Widget Sample.lib))
             Sample.menuTemplates
             (Sample.menuOptions (VElem 1) (VStr "brand")) Sample.world
             (Sample.menuSpecialized 0) Sample.world1 Sample.menuPayload
             "item").
    reflexivity.
Defined.

(** ** Class names *)

Lemma concat_nonempty sep t l : t <> "" -> String.concat sep (t :: l) <> "".
Proof.
  intros Ht. destruct l as [|u l]; simpl; [done |].
  destruct t; [done | discriminate].
Qed.

Lemma concat_filter_nonempty_head {A} (f : A -> bool) (l : list A) t l' :
  List.filter f l = t :: l' -> f t = true.
Proof.
  intros Hf. assert (Hin : In t (List.filter f l)) by (rewrite Hf; by left).
  by apply filter_In in Hin as [_ Ht].
Qed.

(** [cx] joins the builder's token and the tokens of the override, empty
    ones left out, in the order given. *)
Lemma cx_flat base user :
  cx base user
  = String.concat " "
      (List.filter (fun s => negb (String.eqb s ""))
         (base :: match user with
                  | ClsUndefined => []
                  | ClsString t => [t]
                  | ClsArray ts => ts
                  end)).
Proof.
  destruct user as [|t|ts]; [reflexivity | reflexivity |].
  unfold cx, cx_join, truthy_strings. simpl.
  destruct (List.filter (fun s : string => negb (String.eqb s "")) ts)
    as [|t a] eqn:Ha.
  - simpl. by destruct (negb (String.eqb base "")).
  - assert (Ht : t <> "").
    { apply concat_filter_nonempty_head in Ha.
      apply negb_true_iff in Ha. by apply String.eqb_neq. }
    destruct (String.eqb_spec (String.concat " " (t :: a)) "") as [He|_];
      [by apply concat_nonempty in He |].
    simpl. by destruct (negb (String.eqb base "")).
Qed.

Section ClassNames.
Context {L : Lib} {MI : @MenuSelect.Imports L} {SI : @SearchBox.Imports L}.

Lemma searchBox_class_lookup u slot :
  SearchBox.build_cssClasses u !! slot
  = if bool_decide (slot ∈ ["root"; "form"; "input"; "submit"; "submitIcon";
                            "reset"; "resetIcon"; "loadingIndicator";
                            "loadingIcon"])
    then Some (cx (SearchBox.suit (if bool_decide (slot = "root")
                                   then ArgAbsent else descendant slot))
                  (class_of u slot))
    else None.
Proof.
  unfold SearchBox.build_cssClasses.
  repeat (rewrite lookup_insert; case_decide;
          [subst slot; reflexivity |]).
  rewrite lookup_empty, bool_decide_eq_false_2; [done |].
  rewrite !elem_of_cons, elem_of_nil. intros Hin.
  repeat (destruct Hin as [Hin | Hin]; [congruence |]). done.
Qed.

Lemma menuSelect_class_lookup u slot :
  MenuSelect.build_cssClasses u !! slot
  = if bool_decide (slot ∈ ["root"; "noRefinementRoot"; "select"; "option"])
    then Some (cx (MenuSelect.suit
                     (if bool_decide (slot = "root") then ArgAbsent
                      else if bool_decide (slot = "noRefinementRoot")
                           then modifier "noRefinement"
                           else descendant slot))
                  (class_of u slot))
    else None.
Proof.
  unfold MenuSelect.build_cssClasses.
  repeat (rewrite lookup_insert; case_decide;
          [subst slot; reflexivity |]).
  rewrite lookup_empty, bool_decide_eq_false_2; [done |].
  rewrite !elem_of_cons, elem_of_nil. intros Hin.
  repeat (destruct Hin as [Hin | Hin]; [congruence |]). done.
Qed.

(** C8. The class names a factory hands to its renderer are a function of
    the [cssClasses] option alone: two runs of a factory that are given
    the same overrides, in whatever world and with whatever other options,
    produce the same class strings.  For each slot the string is the
    builder's token for that slot followed by the tokens of the user's
    override for that slot, joined by single spaces in the order given,
    empty tokens left out and duplicates kept. *)
Theorem class_names_deterministic :
  (forall o1 o2 w1 w2 p1 p2 w1' w2',
      SearchBox.specialize o1 w1 = (Returned p1, w1') ->
      SearchBox.specialize o2 w2 = (Returned p2, w2') ->
      SearchBox.cssClasses o1 = SearchBox.cssClasses o2 ->
      SearchBox.r_cssClasses p1 = SearchBox.r_cssClasses p2)
  /\ (forall o1 o2 w1 w2 p1 p2 w1' w2',
        MenuSelect.specialize o1 w1 = (Returned p1, w1') ->
        MenuSelect.specialize o2 w2 = (Returned p2, w2') ->
        MenuSelect.cssClasses o1 = MenuSelect.cssClasses o2 ->
        MenuSelect.r_cssClasses p1 = MenuSelect.r_cssClasses p2)
  /\ (forall o w p w1 slot,
        SearchBox.specialize o w = (Returned p, w1) ->
        slot ∈ ["root"; "form"; "input"; "submit"; "submitIcon"; "reset";
                "resetIcon"; "loadingIndicator"; "loadingIcon"] ->
        SearchBox.r_cssClasses p !! slot
        = Some (String.concat " "
                  (List.filter (fun s => negb (String.eqb s ""))
                     (component "SearchBox"
                        (if bool_decide (slot = "root") then ArgAbsent
                         else ArgObj {| modifierName := None;
                                        descendantName := Some slot |})
                      :: match match SearchBox.cssClasses o with
                               | ArgObj u => u !! slot
                               | _ => None
                               end with
                         | Some (ClsString t) => [t]
                         | Some (ClsArray ts) => ts
                         | _ => []
                         end))))
  /\ (forall o w p w1 slot,
        MenuSelect.specialize o w = (Returned p, w1) ->
        slot ∈ ["root"; "noRefinementRoot"; "select"; "option"] ->
        MenuSelect.r_cssClasses p !! slot
        = Some (String.concat " "
                  (List.filter (fun s => negb (String.eqb s ""))
                     (component "MenuSelect"
                        (if bool_decide (slot = "root") then ArgAbsent
                         else if bool_decide (slot = "noRefinementRoot")
                              then ArgObj {| modifierName := Some "noRefinement";
                                             descendantName := None |}
                              else ArgObj {| modifierName := None;
                                             descendantName := Some slot |})
                      :: match match MenuSelect.cssClasses o with
                               | ArgObj u => u !! slot
                               | _ => None
                               end with
                         | Some (ClsString t) => [t]
                         | Some (ClsArray ts) => ts
                         | _ => []
                         end)))).
Proof.
  split; [| split; [| split]].
  - intros o1 o2 w1 w2 p1 p2 w1' w2' Hs1 Hs2 Heq.
    destruct (searchBox_specialize_inv _ _ _ _ Hs1)
      as (? & ? & _ & _ & _ & _ & -> & _).
    destruct (searchBox_specialize_inv _ _ _ _ Hs2)
      as (? & ? & _ & _ & _ & _ & -> & _).
    simpl. by rewrite Heq.
  - intros o1 o2 w1 w2 p1 p2 w1' w2' Hs1 Hs2 Heq.
    destruct (menuSelect_specialize_inv _ _ _ _ Hs1)
      as (? & ? & _ & _ & _ & _ & -> & _).
    destruct (menuSelect_specialize_inv _ _ _ _ Hs2)
      as (? & ? & _ & _ & _ & _ & -> & _).
    simpl. by rewrite Heq.
  - intros o w p w1 slot Hs Hin.
    destruct (searchBox_specialize_inv _ _ _ _ Hs)
      as (? & ? & _ & _ & _ & _ & -> & _).
    simpl. rewrite searchBox_class_lookup, bool_decide_eq_true_2 by done.
    rewrite cx_flat. unfold class_of, overrides_of, SearchBox.suit, descendant.
    destruct (SearchBox.cssClasses o) as [| |u]; simpl;
      try rewrite lookup_empty; try reflexivity.
    by destruct (u !! slot) as [[]|].
  - intros o w p w1 slot Hs Hin.
    destruct (menuSelect_specialize_inv _ _ _ _ Hs)
      as (? & ? & _ & _ & _ & _ & -> & _).
    simpl. rewrite menuSelect_class_lookup, bool_decide_eq_true_2 by done.
    rewrite cx_flat.
    unfold class_of, overrides_of, MenuSelect.suit, descendant, modifier.
    destruct (MenuSelect.cssClasses o) as [| |u]; simpl;
      try rewrite lookup_empty; try reflexivity.
    by destruct (u !! slot) as [[]|].
Qed.
End ClassNames.

Lemma class_names_deterministic_witness :
  SearchBox.r_cssClasses Sample.searchStyled !! "root"
  = Some "ais-SearchBox ais-SearchBox"
  /\ SearchBox.r_cssClasses Sample.searchStyled !! "submit"
     = Some "ais-SearchBox-submit a b a"
  /\ MenuSelect.r_cssClasses Sample.menuStyled !! "noRefinementRoot"
     = Some "ais-MenuSelect--noRefinement empty"
  /\ SearchBox.r_cssClasses Sample.searchStyled
     = SearchBox.r_cssClasses Sample.searchStyled.
Proof.
  split; [| split; [| split]].
  - refine (eq_trans
              (proj1 (proj2 (proj2 (@class_names_deterministic
                                      Sample.lib Sample.acceptingMenu
                                      Sample.acceptingSearchBox)))
                 (Sample.searchOptionsStyled (VElem 1)) Sample.world
                 Sample.searchStyled
                 {| dom := Sample.page; heap := [];
                    log := [EvWarning true SearchBox.autofocus_message] |}
                 "root" eq_refl _) _);
      [repeat constructor | vm_compute; reflexivity].
  - refine (eq_trans
              (proj1 (proj2 (proj2 (@class_names_deterministic
                                      Sample.lib Sample.acceptingMenu
                                      Sample.acceptingSearchBox)))
                 (Sample.searchOptionsStyled (VElem 1)) Sample.world
                 Sample.searchStyled
                 {| dom := Sample.page; heap := [];
                    log := [EvWarning true SearchBox.autofocus_message] |}
                 "submit" eq_refl _) _);
      [repeat constructor | vm_compute; reflexivity].
  - refine (eq_trans
              (proj2 (proj2 (proj2 (@class_names_deterministic
                                      Sample.lib Sample.acceptingMenu
                                      Sample.acceptingSearchBox)))
                 Sample.menuOptionsStyled Sample.world
                 Sample.menuStyled Sample.world1
                 "noRefinementRoot" eq_refl _) _);
      [repeat constructor | vm_compute; reflexivity].
  - apply (proj1 (@class_names_deterministic
                    Sample.lib Sample.acceptingMenu Sample.acceptingSearchBox)
             (Sample.searchOptionsStyled (VElem 1))
             (Sample.searchOptionsStyled (VStr "#q"))
             Sample.world Sample.world
             Sample.searchStyled Sample.searchStyled
             {| dom := Sample.page; heap := [];
                log := [EvWarning true SearchBox.autofocus_message] |}
             {| dom := Sample.page; heap := [];
                log := [EvQuerySelector "#q";
                        EvWarning true SearchBox.autofocus_message] |});
      reflexivity.
Defined.

(** * The factories, step by step *)

Section FactorySteps.
Context {L : Lib} {MI : @MenuSelect.Imports L} {SI : @SearchBox.Imports L}.

Lemma menuSelect_specialize_resolved o w n w0 :
  truthy (MenuSelect.container o) = true ->
  truthy (MenuSelect.attribute o) = true ->
  getContainerNode (MenuSelect.container o) w = (Returned n, w0) ->
  MenuSelect.cssClasses o <> ArgNull ->
  MenuSelect.specialize o w
  = (Returned {| MenuSelect.r_containerNode := n;
                 MenuSelect.r_cssClasses :=
                   MenuSelect.build_cssClasses
                     (overrides_of (MenuSelect.cssClasses o));
                 MenuSelect.r_renderState := length (heap w0);
                 MenuSelect.r_templates :=
                   default MenuSelect.defaultTemplates (MenuSelect.templates o);
                 MenuSelect.r_transformData := MenuSelect.transformData o |},
     {| dom := dom w0; heap := heap w0 ++ [emptyRenderState]; log := log w0 |}).
Proof.
  intros Hc Ha Hg Hcss. unfold MenuSelect.specialize. rewrite Hc, Ha. simpl.
  unfold bind at 1. rewrite Hg. unfold bind at 1.
  rewrite (read_cssClasses_given _ _ Hcss). reflexivity.
Qed.

Lemma menuSelect_specialize_null o w n w0 :
  truthy (MenuSelect.container o) = true ->
  truthy (MenuSelect.attribute o) = true ->
  getContainerNode (MenuSelect.container o) w = (Returned n, w0) ->
  MenuSelect.cssClasses o = ArgNull ->
  MenuSelect.specialize o w = (Threw null_property_error, w0).
Proof.
  intros Hc Ha Hg Hcss. unfold MenuSelect.specialize. rewrite Hc, Ha. simpl.
  unfold bind at 1. rewrite Hg. unfold bind at 1. by rewrite Hcss.
Qed.

Lemma searchBox_specialize_resolved o w n w0 :
  truthy (SearchBox.container o) = true ->
  getContainerNode (SearchBox.container o) w = (Returned n, w0) ->
  default "" (tagName <$> dom w0 !! n) <> "INPUT" ->
  SearchBox.cssClasses o <> ArgNull ->
  SearchBox.specialize o w
  = (Returned
       {| SearchBox.r_containerNode := n;
          SearchBox.r_cssClasses :=
            SearchBox.build_cssClasses (overrides_of (SearchBox.cssClasses o));
          SearchBox.r_placeholder :=
            param_default (VStr "") (SearchBox.placeholder o);
          SearchBox.r_templates :=
            SearchBox.merge_templates SearchBox.defaultTemplates
                                      (SearchBox.templates o);
          SearchBox.r_autofocus :=
            param_default (VBool false) (SearchBox.autofocus o);
          SearchBox.r_searchAsYouType :=
            param_default (VBool true) (SearchBox.searchAsYouType o);
          SearchBox.r_showReset :=
            param_default (VBool true) (SearchBox.showReset o);
          SearchBox.r_showSubmit :=
            param_default (VBool true) (SearchBox.showSubmit o);
          SearchBox.r_showLoadingIndicator :=
            param_default (VBool true) (SearchBox.showLoadingIndicator o) |},
     {| dom := dom w0; heap := heap w0;
        log := log w0
               ++ [EvWarning (is_boolean (param_default (VBool false)
                                            (SearchBox.autofocus o)))
                             SearchBox.autofocus_message] |}).
Proof.
  intros Hc Hg Htag Hcss. unfold SearchBox.specialize. rewrite Hc. simpl.
  unfold bind at 1. rewrite Hg. unfold bind at 1, tagName_of.
  destruct (String.eqb_spec (default "" (tagName <$> dom w0 !! n)) "INPUT")
    as [|_]; [done |].
  unfold bind at 1, warning, emit. unfold bind at 1.
  rewrite (read_cssClasses_given _ _ Hcss). reflexivity.
Qed.

Lemma searchBox_specialize_null o w n w0 :
  truthy (SearchBox.container o) = true ->
  getContainerNode (SearchBox.container o) w = (Returned n, w0) ->
  default "" (tagName <$> dom w0 !! n) <> "INPUT" ->
  SearchBox.cssClasses o = ArgNull ->
  SearchBox.specialize o w
  = (Threw null_property_error,
     {| dom := dom w0; heap := heap w0;
        log := log w0
               ++ [EvWarning (is_boolean (param_default (VBool false)
                                            (SearchBox.autofocus o)))
                             SearchBox.autofocus_message] |}).
Proof.
  intros Hc Hg Htag Hcss. unfold SearchBox.specialize. rewrite Hc. simpl.
  unfold bind at 1. rewrite Hg. unfold bind at 1, tagName_of.
  destruct (String.eqb_spec (default "" (tagName <$> dom w0 !! n)) "INPUT")
    as [|_]; [done |].
  unfold bind at 1, warning, emit. unfold bind at 1. by rewrite Hcss.
Qed.

(** X1. Whatever [menuSelect] throws for an options object is the usage
    error, the very error [getContainerNode] raised, or the [TypeError] of
    reading a class override from a [cssClasses] that is [null]: nothing a
    connector throws ever reaches the caller. *)
Theorem menuSelect_error_surface o w e w' :
  MenuSelect.menuSelect (ArgObj o) w = (Threw e, w') ->
  e = Error MenuSelect.usage
  \/ getContainerNode (MenuSelect.container o) w = (Threw e, w')
  \/ (MenuSelect.cssClasses o = ArgNull /\ e = null_property_error).
Proof.
  unfold MenuSelect.menuSelect, MenuSelect.specialize.
  destruct (negb (truthy (MenuSelect.container o))
            || negb (truthy (MenuSelect.attribute o))).
  - unfold bind, throw. intros [= <- <-]. by left.
  - unfold bind at 1. unfold bind at 1.
    destruct (getContainerNode (MenuSelect.container o) w) as [[n|e0] w0];
      [| intros [= <- <-]; right; by left].
    unfold bind at 1.
    destruct (MenuSelect.cssClasses o) as [| |u] eqn:Hcss; simpl;
      try (intros [= <- <-]; right; by right).
    all: unfold bind, alloc_renderState, ret, try_catch;
      destruct (MenuSelect.connectMenu _ _ _) as [[wd|e1] w2];
      [discriminate |]; unfold throw; intros [= <- <-]; by left.
Qed.

(** X2. An error of the container resolution is not converted: with the
    required options present, what [getContainerNode] throws is what
    [menuSelect] and [searchBox] throw, in the world it left, and the
    connector is not consulted. *)
Theorem container_error_propagates :
  (forall o w e w0,
      truthy (MenuSelect.container o) = true ->
      truthy (MenuSelect.attribute o) = true ->
      getContainerNode (MenuSelect.container o) w = (Threw e, w0) ->
      MenuSelect.menuSelect (ArgObj o) w = (Threw e, w0))
  /\ (forall o w e w0,
        truthy (SearchBox.container o) = true ->
        getContainerNode (SearchBox.container o) w = (Threw e, w0) ->
        SearchBox.searchBox (ArgObj o) w = (Threw e, w0)).
Proof.
  split.
  - intros o w e w0 Hc Ha Hg.
    unfold MenuSelect.menuSelect, MenuSelect.specialize. rewrite Hc, Ha. simpl.
    unfold bind at 1. unfold bind at 1. by rewrite Hg.
  - intros o w e w0 Hc Hg.
    unfold SearchBox.searchBox, SearchBox.specialize. rewrite Hc. simpl.
    unfold bind at 1. unfold bind at 1. by rewrite Hg.
Qed.

(** X3. Building a menu-select widget whose container resolves adds
    nothing to the trace of its own (no render, no warning) and changes no
    DOM node.  When [cssClasses] is [null] it throws the [TypeError] of
    the property read, in the world the container resolution left: no
    render state is allocated and the connector is not reached.  Otherwise
    it allocates one empty render state at the end of the heap, calls the
    connector in that world, and returns the widget the connector
    returns. *)
Theorem menuSelect_factory_effects o w n w0 :
  truthy (MenuSelect.container o) = true ->
  truthy (MenuSelect.attribute o) = true ->
  getContainerNode (MenuSelect.container o) w = (Returned n, w0) ->
  (MenuSelect.cssClasses o = ArgNull ->
   MenuSelect.menuSelect (ArgObj o) w = (Threw null_property_error, w0))
  /\ (MenuSelect.cssClasses o <> ArgNull ->
      exists p w1,
        MenuSelect.specialize o w = (Returned p, w1)
        /\ MenuSelect.r_containerNode p = n
        /\ dom w1 = dom w0
        /\ log w1 = log w0
        /\ heap w1 = heap w0 ++ [emptyRenderState]
        /\ MenuSelect.r_renderState p = length (heap w0)
        /\ forall wd w2,
             MenuSelect.connectMenu (MenuSelect.renderer p)
                                    (MenuSelect.widgetParams o) w1
             = (Returned wd, w2) ->
             MenuSelect.menuSelect (ArgObj o) w = (Returned wd, w2)).
Proof.
  intros Hc Ha Hg. split; intros Hcss.
  - unfold MenuSelect.menuSelect.
    by rewrite (bind_threw _ _ _ _ _
                  (menuSelect_specialize_null o w n w0 Hc Ha Hg Hcss)).
  - pose proof (menuSelect_specialize_resolved o w n w0 Hc Ha Hg Hcss) as Hs.
    eexists _, _. split; [exact Hs |]. simpl. repeat split.
    intros wd w2 Hconn. unfold MenuSelect.menuSelect.
    rewrite (bind_returned _ _ _ _ _ Hs). unfold try_catch. by rewrite Hconn.
Qed.

(** X4. Building a search-box widget whose container resolves to an
    element other than an [INPUT] leaves the DOM and the heap alone and
    adds exactly one event to the trace, the [warning] call, whose
    condition holds exactly when [autofocus] is absent or a boolean.  When
    [cssClasses] is [null] the factory then throws the [TypeError] of the
    property read and the connector is not reached.  Otherwise a value of
    [autofocus] of another type does not stop the construction and is
    handed to the renderer as it is, and the factory returns what the
    connector returns for the renderer and for the disposer of that same
    container node. *)
Theorem searchBox_factory_effects o w n w0 :
  truthy (SearchBox.container o) = true ->
  getContainerNode (SearchBox.container o) w = (Returned n, w0) ->
  default "" (tagName <$> dom w0 !! n) <> "INPUT" ->
  let warned :=
    {| dom := dom w0; heap := heap w0;
       log := log w0
              ++ [EvWarning (match SearchBox.autofocus o with
                             | VUndefined | VBool _ => true
                             | _ => false
                             end) SearchBox.autofocus_message] |} in
  (SearchBox.cssClasses o = ArgNull ->
   SearchBox.searchBox (ArgObj o) w = (Threw null_property_error, warned))
  /\ (SearchBox.cssClasses o <> ArgNull ->
      exists p,
        SearchBox.specialize o w = (Returned p, warned)
        /\ SearchBox.r_containerNode p = n
        /\ (SearchBox.autofocus o <> VUndefined ->
            SearchBox.r_autofocus p = SearchBox.autofocus o)
        /\ SearchBox.searchBox (ArgObj o) w
           = SearchBox.connectSearchBox
               (SearchBox.renderFn p) (SearchBox.disposer n)
               {| SearchBox.wp_queryHook := SearchBox.queryHook o |} warned).
Proof.
  intros Hc Hg Htag warned.
  assert (Hw : warned
               = {| dom := dom w0; heap := heap w0;
                    log := log w0
                           ++ [EvWarning
                                 (is_boolean (param_default (VBool false)
                                                (SearchBox.autofocus o)))
                                 SearchBox.autofocus_message] |}).
  { unfold warned. by destruct (SearchBox.autofocus o). }
  split; intros Hcss.
  - unfold SearchBox.searchBox. rewrite Hw.
    by rewrite (bind_threw _ _ _ _ _
                  (searchBox_specialize_null o w n w0 Hc Hg Htag Hcss)).
  - pose proof (searchBox_specialize_resolved o w n w0 Hc Hg Htag Hcss) as Hs.
    rewrite Hw. eexists. split; [exact Hs |]. simpl. repeat split.
    + by destruct (SearchBox.autofocus o).
    + unfold SearchBox.searchBox.
      by rewrite (bind_returned _ _ _ _ _ Hs).
Qed.

(** X5. The options of [searchBox] reach the component: every call of the
    renderer the factory built hands [render] one [SearchBox] element, on
    the resolved container, whose props are the payload's [query],
    [refine] and [isSearchStalled], the options with their defaults
    ([placeholder] [''], [autofocus] [false], the four flags [true]; only
    an [undefined] option is defaulted), the merged templates and the
    class names. *)
Theorem searchBox_options_reach_component o w p w1 :
  SearchBox.specialize o w = (Returned p, w1) ->
  forall payload flag w2,
    SearchBox.renderFn p payload flag w2
    = (Returned tt,
       {| dom := dom w2; heap := heap w2;
          log := log w2
                 ++ [EvRender
                       (SearchBoxEl
                          {| sbp_query := SearchBox.query payload;
                             sbp_placeholder :=
                               param_default (VStr "") (SearchBox.placeholder o);
                             sbp_autofocus :=
                               param_default (VBool false) (SearchBox.autofocus o);
                             sbp_refine := SearchBox.refine payload;
                             sbp_searchAsYouType :=
                               param_default (VBool true)
                                             (SearchBox.searchAsYouType o);
                             sbp_templates :=
                               SearchBox.merge_templates
                                 SearchBox.defaultTemplates
                                 (SearchBox.templates o);
                             sbp_showSubmit :=
                               param_default (VBool true) (SearchBox.showSubmit o);
                             sbp_showReset :=
                               param_default (VBool true) (SearchBox.showReset o);
                             sbp_showLoadingIndicator :=
                               param_default (VBool true)
                                             (SearchBox.showLoadingIndicator o);
                             sbp_isSearchStalled :=
                               SearchBox.isSearchStalled payload;
                             sbp_cssClasses :=
                               SearchBox.build_cssClasses
                                 (match SearchBox.cssClasses o with
                                  | ArgObj u => u
                                  | _ => ∅
                                  end) |})
                       (SearchBox.r_containerNode p)] |}).
Proof.
  intros Hs.
  destruct (searchBox_specialize_inv _ _ _ _ Hs)
    as (n & w0 & _ & _ & _ & _ & -> & _).
  reflexivity.
Qed.
End FactorySteps.

(** * The renderers under any calling discipline *)

Lemma count_events_snoc p t e :
  count_events p (t ++ [e]) = count_events p t + (if p e then 1 else 0).
Proof. rewrite count_events_app. simpl. lia. Qed.

Section RendererSequences.
Context {L : Lib} {MI : @MenuSelect.Imports L}.

Lemma menuSelect_run_calls p calls : forall w rs,
  heap w !! MenuSelect.r_renderState p = Some rs ->
  exists w',
    run_calls (MenuSelect.renderer p) calls w = (Returned tt, w')
    /\ render_calls (log w') = render_calls (log w) + calls_with false calls
    /\ stores_to (MenuSelect.r_renderState p) (log w')
       = stores_to (MenuSelect.r_renderState p) (log w) + calls_with true calls
    /\ length (heap w') = length (heap w)
    /\ heap w' !! MenuSelect.r_renderState p
       = Some {| templateProps := last_prepared p (templateProps rs) calls |}
    /\ forall l', l' <> MenuSelect.r_renderState p ->
                  heap w' !! l' = heap w !! l'.
Proof.
  induction calls as [|[payload flag] calls IH]; intros w rs Hl.
  - exists w. unfold calls_with. simpl. rewrite !Nat.add_0_r.
    repeat split; try done. rewrite Hl. by destruct rs.
  - unfold run_calls. simpl. fold (run_calls (MenuSelect.renderer p) calls).
    unfold bind at 1. destruct flag; simpl.
    + pose proof (stored_lookup (heap w) _ rs
                    {| templateProps :=
                         Some (MenuSelect.prepareTemplateProps
                                 (MenuSelect.prepare_args p payload)) |} Hl)
        as Hstored.
      destruct (IH {| dom := dom w;
                      heap := <[MenuSelect.r_renderState p :=
                                  {| templateProps :=
                                       Some (MenuSelect.prepareTemplateProps
                                               (MenuSelect.prepare_args p payload)) |}]>
                                (heap w);
                      log := log w ++ [EvStore (MenuSelect.r_renderState p)] |}
                   _ Hstored)
        as (w' & Hrun & Hr & Hs & Hlen & Hcell & Hframe).
      exists w'. simpl in *. rewrite Hrun. split; [done |].
      unfold render_calls, stores_to, calls_with in *. simpl.
      rewrite count_events_snoc in Hr, Hs. simpl in Hr, Hs.
      rewrite Nat.eqb_refl in Hs. rewrite length_insert in Hlen.
      repeat split; try done; try lia.
      intros l' Hne. rewrite Hframe by done.
      by rewrite list_lookup_insert_ne.
    + match goal with
      | |- context [run_calls _ _ ?w0] =>
          destruct (IH w0 rs Hl)
            as (w' & Hrun & Hr & Hs & Hlen & Hcell & Hframe)
      end.
      exists w'. simpl in *. rewrite Hrun. split; [done |].
      unfold render_calls, stores_to, calls_with in *. simpl.
      rewrite count_events_snoc in Hr, Hs. simpl in Hr, Hs.
      repeat split; try done; lia.
Qed.

(** X6. The menu-select renderer trusts the flag it is given.  Over any
    sequence of calls the trace holds one call of [render] for each call
    flagged [false] and one assignment to [templateProps] for each call
    flagged [true]; afterwards [templateProps] holds what the last call
    flagged [true] prepared (what it held before, if there is none).  No
    render state is added or removed, and every other render state is as
    before. *)
Theorem menuSelect_renderer_any_flags p calls w rs :
  heap w !! MenuSelect.r_renderState p = Some rs ->
  let w' := (run_calls (MenuSelect.renderer p) calls w).2 in
  render_calls (log w') = render_calls (log w) + calls_with false calls
  /\ stores_to (MenuSelect.r_renderState p) (log w')
     = stores_to (MenuSelect.r_renderState p) (log w) + calls_with true calls
  /\ length (heap w') = length (heap w)
  /\ heap w' !! MenuSelect.r_renderState p
     = Some {| templateProps := last_prepared p (templateProps rs) calls |}
  /\ forall l', l' <> MenuSelect.r_renderState p ->
                heap w' !! l' = heap w !! l'.
Proof.
  intros Hl.
  destruct (menuSelect_run_calls p calls w rs Hl) as (w' & Hrun & H).
  rewrite Hrun. exact H.
Qed.

(** X7. The renderer does not check that it was prepared: called with
    [isFirstRendering = false] on the render state the factory has just
    created, it renders all the same, with [templateProps] undefined, and
    stores nothing. *)
Theorem menuSelect_render_before_prepare o w p w1 :
  MenuSelect.specialize o w = (Returned p, w1) ->
  forall payload,
    MenuSelect.renderer p payload false w1
    = (Returned tt,
       {| dom := dom w1; heap := heap w1;
          log := log w1 ++ [EvRender (MenuSelect.element p payload None)
                                     (MenuSelect.r_containerNode p)] |}).
Proof.
  intros Hs payload.
  destruct (menuSelect_specialize_fresh _ _ _ _ Hs) as [Hl Hh].
  unfold MenuSelect.renderer, bind, get_templateProps, render, emit.
  rewrite Hh, Hl, list_lookup_middle by done. reflexivity.
Qed.

(** X8. Two menu-select widgets never share a render state: the object a
    later factory call allocates differs from every object allocated
    before, and a call of either renderer, whatever its flag, leaves the
    other widget's render state as it is. *)
Theorem renderState_isolated o1 o2 w w1 w1' w2 p1 p2 :
  MenuSelect.specialize o1 w = (Returned p1, w1) ->
  length (heap w1) <= length (heap w1') ->
  MenuSelect.specialize o2 w1' = (Returned p2, w2) ->
  MenuSelect.r_renderState p1 <> MenuSelect.r_renderState p2
  /\ forall payload flag w3,
       heap (MenuSelect.renderer p2 payload flag w3).2
         !! MenuSelect.r_renderState p1
       = heap w3 !! MenuSelect.r_renderState p1
       /\ heap (MenuSelect.renderer p1 payload flag w3).2
            !! MenuSelect.r_renderState p2
          = heap w3 !! MenuSelect.r_renderState p2.
Proof.
  intros Hs1 Hlen Hs2.
  destruct (menuSelect_specialize_fresh _ _ _ _ Hs1) as [Hl1 Hh1].
  destruct (menuSelect_specialize_fresh _ _ _ _ Hs2) as [Hl2 _].
  rewrite Hh1, length_app in Hlen. simpl in Hlen.
  assert (Hne : MenuSelect.r_renderState p1 <> MenuSelect.r_renderState p2)
    by lia.
  split; [done |]. intros payload flag w3.
  destruct flag; simpl; [| done].
  split; by rewrite list_lookup_insert_ne.
Qed.

Lemma searchBox_run_calls p calls : forall w,
  run_calls (SearchBox.renderFn p) calls w
  = (Returned tt,
     {| dom := dom w; heap := heap w;
        log := log w
               ++ map (fun call : SearchBox.Payload * bool =>
                         EvRender (SearchBox.element p call.1)
                                  (SearchBox.r_containerNode p)) calls |}).
Proof.
  induction calls as [|[payload flag] calls IH]; intros w.
  - unfold run_calls, ret. simpl. by rewrite world_eta.
  - unfold run_calls. simpl. fold (run_calls (SearchBox.renderFn p) calls).
    unfold bind at 1. simpl. rewrite IH. simpl. by rewrite <- app_assoc.
Qed.

Lemma render_calls_renders {A} (f : A -> vnode) n (l : list A) :
  render_calls (map (fun a => EvRender (f a) n) l) = length l.
Proof. induction l as [|a l IH]; simpl; [done | by rewrite <- IH]. Qed.

(** X9. The search-box renderer keeps nothing between calls: over any
    sequence of calls, whatever the flags, it hands [render] exactly one
    element per call, in the order of the calls, each built from that
    call's payload alone, and adds nothing else to the trace. *)
Theorem searchBox_renderer_stateless p calls w :
  let w' := (run_calls (SearchBox.renderFn p) calls w).2 in
  log w'
  = log w ++ map (fun call : SearchBox.Payload * bool =>
                    EvRender (SearchBox.element p call.1)
                             (SearchBox.r_containerNode p)) calls
  /\ render_calls (log w') = render_calls (log w) + length calls.
Proof.
  rewrite searchBox_run_calls. simpl. split; [done |].
  unfold render_calls at 1. rewrite count_events_app.
  fold (render_calls (log w)).
  fold (render_calls
          (map (fun call : SearchBox.Payload * bool =>
                  EvRender (SearchBox.element p call.1)
                           (SearchBox.r_containerNode p)) calls)).
  by rewrite (render_calls_renders (fun call : SearchBox.Payload * bool =>
                                      SearchBox.element p call.1)).
Qed.
End RendererSequences.

(** * The teardown and the rest of the document *)

Lemma dom_wfb_intro d :
  (forall n x, d !! n = Some x -> node_wfb d n x = true) -> dom_wfb d = true.
Proof.
  intros Hall. unfold dom_wfb. rewrite forallb_forall. intros [n x] Hin.
  apply list_elem_of_In, list_elem_of_lookup in Hin as [i Hi].
  rewrite list_lookup_imap in Hi.
  destruct (d !! i) as [y|] eqn:Hy; simpl in Hi; [| done].
  injection Hi as <- <-. simpl. by apply Hall.
Qed.

Lemma node_wfb_spec d n x :
  node_wfb d n x = true
  <-> parentNode x <> Some n
      /\ (forall p, parentNode x = Some p ->
            exists y, d !! p = Some y /\ n ∈ childNodes y)
      /\ (forall c, c ∈ childNodes x ->
            exists y, d !! c = Some y /\ parentNode y = Some n).
Proof.
  unfold node_wfb. rewrite !andb_true_iff, negb_true_iff,
    bool_decide_eq_false, forallb_forall.
  split.
  - intros [[Hself Hpar] Hkids]. split; [done |]. split.
    + intros p Hp. rewrite Hp in Hpar.
      destruct (d !! p) as [y|]; [| done].
      exists y. split; [done |]. by apply bool_decide_eq_true in Hpar.
    + intros c Hc. specialize (Hkids c (proj1 (list_elem_of_In _ _) Hc)).
      destruct (d !! c) as [y|]; [| done].
      exists y. split; [done |]. by apply bool_decide_eq_true in Hkids.
  - intros (Hself & Hpar & Hkids). split; [split; [done |] |].
    + destruct (parentNode x) as [p|]; [| done].
      destruct (Hpar p eq_refl) as (y & -> & Hin).
      by apply bool_decide_eq_true.
    + intros c Hc. apply list_elem_of_In in Hc.
      destruct (Hkids c Hc) as (y & -> & Hy). by apply bool_decide_eq_true.
Qed.

Lemma cleared_lookup d n x m :
  d !! n = Some x ->
  n ∉ childNodes x ->
  set_childNodes n [] (foldr detach d (childNodes x)) !! m
  = if bool_decide (m = n) then Some (with_children [] x)
    else if bool_decide (m ∈ childNodes x) then orphan <$> d !! m
         else d !! m.
Proof.
  intros Hn Hself. rewrite set_childNodes_lookup, foldr_detach_lookup.
  case_bool_decide as Hm.
  - subst m. rewrite Hn. simpl. by rewrite bool_decide_eq_false_2.
  - case_bool_decide; destruct (d !! m); reflexivity.
Qed.

(** X10. The teardown touches the container and its children only: a
    child of the container loses its parent and keeps its tag and its own
    children, so the removed content stays in one piece; every other node
    of the document is exactly as it was. *)
Theorem disposer_frame w n x m :
  dom w !! n = Some x ->
  m <> n ->
  dom (SearchBox.disposer n w).2 !! m
  = if bool_decide (m ∈ childNodes x) then orphan <$> dom w !! m
    else dom w !! m.
Proof.
  intros Hn Hm. rewrite disposer_run, Hn. simpl.
  rewrite set_childNodes_lookup, foldr_detach_lookup.
  rewrite bool_decide_eq_false_2 by done.
  case_bool_decide; destruct (dom w !! m); reflexivity.
Qed.

(** X11. The teardown keeps the document well formed: after it, parent
    and child pointers still agree everywhere, for the container, its
    former children and every other node. *)
Theorem disposer_preserves_wf w n :
  dom_wfb (dom w) = true ->
  dom_wfb (dom (SearchBox.disposer n w).2) = true.
Proof.
  intros Hwf. rewrite disposer_run. simpl.
  destruct (dom w !! n) as [x|] eqn:Hn; [| done]. simpl.
  pose proof (wf_not_own_child _ _ _ Hwf Hn) as Hself.
  pose proof (proj1 (node_wfb_spec _ _ _) (dom_wfb_node _ _ _ Hwf Hn))
    as (Hxa & Hxb & Hxc).
  (* a node that points to a parent other than the container still does *)
  assert (Hkeep : forall c yc m,
             dom w !! c = Some yc -> parentNode yc = Some m -> m <> n ->
             exists y, set_childNodes n [] (foldr detach (dom w) (childNodes x))
                         !! c = Some y
                       /\ parentNode y = Some m).
  { intros c yc m Hc Hpar Hmn. rewrite (cleared_lookup _ _ _ _ Hn Hself).
    case_bool_decide as Hcn.
    - subst c. rewrite Hn in Hc. injection Hc as <-. eexists. split; done.
    - rewrite bool_decide_eq_false_2; [by exists yc |].
      intros Hin. destruct (Hxc c Hin) as (y & Hy & Hp). congruence. }
  (* the children of a node other than the container are still listed *)
  assert (Hlist : forall p yp,
             dom w !! p = Some yp -> p <> n ->
             exists y, set_childNodes n [] (foldr detach (dom w) (childNodes x))
                         !! p = Some y
                       /\ childNodes y = childNodes yp).
  { intros p yp Hp Hpn. rewrite (cleared_lookup _ _ _ _ Hn Hself).
    rewrite bool_decide_eq_false_2 by done. rewrite Hp.
    case_bool_decide; eexists; split; done. }
  apply dom_wfb_intro. intros m x' Hm'.
  rewrite (cleared_lookup _ _ _ _ Hn Hself) in Hm'.
  apply node_wfb_spec.
  destruct (decide (m = n)) as [->|Hmn].
  - rewrite bool_decide_eq_true_2 in Hm' by done. injection Hm' as <-. simpl.
    split; [done |]. split; [| intros c Hc; by apply elem_of_nil in Hc].
    intros p Hp. destruct (Hxb p Hp) as (yp & Hyp & Hin).
    destruct (Hlist p yp Hyp) as (y & Hy & Hch); [congruence |].
    exists y. by rewrite Hch.
  - rewrite bool_decide_eq_false_2 in Hm' by done.
    destruct (dom w !! m) as [y|] eqn:Hm;
      [| by destruct (bool_decide (m ∈ childNodes x))].
    pose proof (proj1 (node_wfb_spec _ _ _) (dom_wfb_node _ _ _ Hwf Hm))
      as (Hya & Hyb & Hyc).
    assert (Hkids : forall c, c ∈ childNodes y ->
               exists y0, set_childNodes n []
                            (foldr detach (dom w) (childNodes x)) !! c = Some y0
                          /\ parentNode y0 = Some m).
    { intros c Hc. destruct (Hyc c Hc) as (yc & Hyc1 & Hyc2).
      by apply (Hkeep c yc m). }
    case_bool_decide as Hin; simpl in Hm'; injection Hm' as <-; simpl.
    + split; [done |]. split; [done |]. exact Hkids.
    + split; [done |]. split; [| exact Hkids].
      intros p Hp. destruct (Hyb p Hp) as (yp & Hyp & Hmin).
      destruct (Hlist p yp Hyp) as (y0 & Hy0 & Hch).
      { intros ->. rewrite Hn in Hyp. injection Hyp as <-. done. }
      exists y0. by rewrite Hch.
Qed.

(** * Class names and templates: which slots exist *)

Lemma cx_undefined base : cx base ClsUndefined = base.
Proof.
  unfold cx, cx_join, truthy_strings. simpl.
  by destruct (String.eqb_spec base "") as [->|_].
Qed.

Section Slots.
Context {L : Lib}.

(** X12. The class names of a widget have a fixed set of slots, nine for
    the search box and four for the menu select: an override under any
    other name is dropped, and a slot without an override carries exactly
    the builder's token for it. *)
Theorem cssClasses_slots :
  (forall u slot,
      is_Some (SearchBox.build_cssClasses u !! slot)
      <-> slot ∈ ["root"; "form"; "input"; "submit"; "submitIcon"; "reset";
                  "resetIcon"; "loadingIndicator"; "loadingIcon"])
  /\ (forall u slot,
        is_Some (MenuSelect.build_cssClasses u !! slot)
        <-> slot ∈ ["root"; "noRefinementRoot"; "select"; "option"])
  /\ (forall u slot,
        u !! slot = None ->
        slot ∈ ["root"; "form"; "input"; "submit"; "submitIcon"; "reset";
                "resetIcon"; "loadingIndicator"; "loadingIcon"] ->
        SearchBox.build_cssClasses u !! slot
        = Some (component "SearchBox"
                  (if bool_decide (slot = "root") then ArgAbsent
                   else descendant slot)))
  /\ (forall u slot,
        u !! slot = None ->
        slot ∈ ["root"; "noRefinementRoot"; "select"; "option"] ->
        MenuSelect.build_cssClasses u !! slot
        = Some (component "MenuSelect"
                  (if bool_decide (slot = "root") then ArgAbsent
                   else if bool_decide (slot = "noRefinementRoot")
                        then modifier "noRefinement"
                        else descendant slot))).
Proof.
  split; [| split; [| split]].
  - intros u slot. rewrite searchBox_class_lookup.
    case_bool_decide; split; done.
  - intros u slot. rewrite menuSelect_class_lookup.
    case_bool_decide; split; done.
  - intros u slot Hu Hin. rewrite searchBox_class_lookup.
    rewrite bool_decide_eq_true_2 by done.
    unfold class_of. rewrite Hu. simpl. by rewrite cx_undefined.
  - intros u slot Hu Hin. rewrite menuSelect_class_lookup.
    rewrite bool_decide_eq_true_2 by done.
    unfold class_of. rewrite Hu. simpl. by rewrite cx_undefined.
Qed.
End Slots.

Section TemplateSlots.
Context {L : Lib} {SI : @SearchBox.Imports L}.

(** X13. The templates the search-box factory closes its renderer over
    have every slot of the defaults and every slot the user supplies,
    known or not, and no other; without user templates they are exactly
    the defaults; and a factory given these resolved templates as the
    user's templates resolves to the same object again. *)
Theorem templates_merge_domain o w p w1 :
  SearchBox.specialize o w = (Returned p, w1) ->
  (forall slot,
      is_Some (SearchBox.r_templates p !! slot)
      <-> is_Some (SearchBox.defaultTemplates !! slot)
          \/ exists t, SearchBox.templates o = Some t /\ is_Some (t !! slot))
  /\ (SearchBox.templates o = None ->
      SearchBox.r_templates p = SearchBox.defaultTemplates)
  /\ (forall o' w' p' w1',
        SearchBox.templates o' = Some (SearchBox.r_templates p) ->
        SearchBox.specialize o' w' = (Returned p', w1') ->
        SearchBox.r_templates p' = SearchBox.r_templates p).
Proof.
  intros Hs.
  destruct (searchBox_specialize_inv _ _ _ _ Hs)
    as (n & w0 & _ & _ & _ & _ & -> & _).
  simpl. split; [| split].
  - intros slot. unfold SearchBox.merge_templates.
    rewrite !assign_lookup, lookup_empty.
    destruct (SearchBox.templates o) as [t|]; simpl.
    + destruct (t !! slot) eqn:Ht, (SearchBox.defaultTemplates !! slot);
        split; try done; try (by left).
      * intros _. right. exists t. by rewrite Ht.
      * intros [[? ?] | (t' & [= <-] & [? Ht'])]; [done | congruence].
    + rewrite lookup_empty.
      destruct (SearchBox.defaultTemplates !! slot);
        split; try done; try (by left).
      intros [[? ?] | (t' & ? & _)]; done.
  - intros ->. apply map_eq. intros slot.
    unfold SearchBox.merge_templates. rewrite !assign_lookup. simpl.
    rewrite lookup_empty.
    by destruct (SearchBox.defaultTemplates !! slot).
  - intros o' w' p' w1' Ht' Hs'.
    destruct (searchBox_specialize_inv _ _ _ _ Hs')
      as (n' & w0' & _ & _ & _ & _ & -> & _).
    simpl. rewrite Ht'. apply map_eq. intros slot.
    unfold SearchBox.merge_templates. simpl.
    rewrite !assign_lookup, lookup_empty.
    destruct (default ∅ (SearchBox.templates o) !! slot),
      (SearchBox.defaultTemplates !! slot); reflexivity.
Qed.
End TemplateSlots.

(** * The statements above on the sample worlds *)

Lemma menuSelect_error_surface_witness :
  Error MenuSelect.usage = Error MenuSelect.usage
  \/ @getContainerNode Sample.lib
       (MenuSelect.container (Sample.menuOptions (VElem 1) (VStr "brand")))
       Sample.world
     = (Threw (Error MenuSelect.usage), Sample.world1)
  \/ (MenuSelect.cssClasses (Sample.menuOptions (VElem 1) (VStr "brand"))
      = ArgNull
      /\ Error MenuSelect.usage = null_property_error).
Proof.
  apply (@menuSelect_error_surface Sample.lib Sample.rejectingMenu
           (Sample.menuOptions (VElem 1) (VStr "brand")) Sample.world
           (Error MenuSelect.usage) Sample.world1).
  reflexivity.
Defined.

Lemma container_error_propagates_witness :
  @MenuSelect.menuSelect Sample.lib Sample.acceptingMenu
     (ArgObj (Sample.menuOptions (VStr "#missing") (VStr "brand"))) Sample.world
  = (Threw (Error "Container must be `string` or `HTMLElement`."),
     Sample.queried "#missing")
  /\ @SearchBox.searchBox Sample.lib Sample.acceptingSearchBox
       (ArgObj (Sample.searchOptions (VStr "#missing") VUndefined)) Sample.world
     = (Threw (Error "Container must be `string` or `HTMLElement`."),
        Sample.queried "#missing").
Proof.
  split.
  - apply (proj1 (@container_error_propagates
                    Sample.lib Sample.acceptingMenu Sample.acceptingSearchBox));
      reflexivity.
  - apply (proj2 (@container_error_propagates
                    Sample.lib Sample.acceptingMenu Sample.acceptingSearchBox));
      reflexivity.
Defined.

Lemma menuSelect_factory_effects_witness :
  @MenuSelect.menuSelect Sample.lib Sample.acceptingMenu
     (ArgObj Sample.menuOptionsNull) Sample.world
  = (Threw null_property_error, Sample.queried "#q")
  /\ exists p w1,
       @MenuSelect.specialize Sample.lib Sample.acceptingMenu
          (Sample.menuOptions (VStr "#q") (VStr "brand")) Sample.world
       = (Returned p, w1)
       /\ MenuSelect.r_containerNode p = 1
       /\ log w1 = [EvQuerySelector "#q"]
       /\ heap w1 = [emptyRenderState]
       /\ @MenuSelect.menuSelect Sample.lib Sample.acceptingMenu
            (ArgObj (Sample.menuOptions (VStr "#q") (VStr "brand")))
            Sample.world
          = (Returned ("menuSelect" : @Widget Sample.lib), w1).
Proof.
  split.
  - apply (proj1 (@menuSelect_factory_effects Sample.lib Sample.acceptingMenu
                    Sample.menuOptionsNull Sample.world
                    1 (Sample.queried "#q") eq_refl eq_refl eq_refl)).
    reflexivity.
  - destruct (proj2 (@menuSelect_factory_effects Sample.lib Sample.acceptingMenu
                       (Sample.menuOptions (VStr "#q") (VStr "brand"))
                       Sample.world
                       1 (Sample.queried "#q") eq_refl eq_refl eq_refl)
                ltac:(discriminate))
      as (p & w1 & Hs & Hn & _ & Hlog & Hheap & _ & Hret).
    exists p, w1. repeat split; try assumption.
    apply Hret. reflexivity.
Defined.

Lemma searchBox_factory_effects_witness :
  @SearchBox.searchBox Sample.lib Sample.acceptingSearchBox
     (ArgObj Sample.searchOptionsNull) Sample.world
  = (Threw null_property_error,
     {| dom := Sample.page; heap := [];
        log := [] ++ [EvWarning false SearchBox.autofocus_message] |})
  /\ exists p,
       @SearchBox.specialize Sample.lib Sample.acceptingSearchBox
          (Sample.searchOptions (VElem 1) (VStr "yes")) Sample.world
       = (Returned p,
          {| dom := Sample.page; heap := [];
             log := [] ++ [EvWarning false SearchBox.autofocus_message] |})
       /\ SearchBox.r_autofocus p = VStr "yes"
       /\ @SearchBox.searchBox Sample.lib Sample.acceptingSearchBox
            (ArgObj (Sample.searchOptions (VElem 1) (VStr "yes"))) Sample.world
          = (Returned ("searchBox" : @Widget Sample.lib),
             {| dom := Sample.page; heap := [];
                log := [] ++ [EvWarning false SearchBox.autofocus_message] |}).
Proof.
  split.
  - apply (proj1 (@searchBox_factory_effects Sample.lib Sample.acceptingSearchBox
                    Sample.searchOptionsNull Sample.world
                    1 Sample.world eq_refl eq_refl ltac:(discriminate))).
    reflexivity.
  - destruct (proj2 (@searchBox_factory_effects
                       Sample.lib Sample.acceptingSearchBox
                       (Sample.searchOptions (VElem 1) (VStr "yes"))
                       Sample.world
                       1 Sample.world eq_refl eq_refl ltac:(discriminate))
                ltac:(discriminate))
      as (p & Hs & _ & Hauto & Hret).
    exists p. split; [exact Hs |]. split; [| exact Hret].
    apply Hauto. discriminate.
Defined.

Lemma searchBox_options_reach_component_witness :
  SearchBox.renderFn (Sample.searchSpecialized VUndefined)
    Sample.searchPayload true Sample.world
  = (Returned tt,
     {| dom := Sample.page; heap := [];
        log := [] ++ [EvRender
                        (SearchBoxEl
                           {| sbp_query := VStr "phone";
                              sbp_placeholder := VStr "";
                              sbp_autofocus := VBool false;
                              sbp_refine := VFun 1;
                              sbp_searchAsYouType := VBool true;
                              sbp_templates :=
                                SearchBox.merge_templates Sample.searchTemplates
                                                          None;
                              sbp_showSubmit := VBool true;
                              sbp_showReset := VBool true;
                              sbp_showLoadingIndicator := VBool true;
                              sbp_isSearchStalled := VBool false;
                              sbp_cssClasses :=
                                @SearchBox.build_cssClasses Sample.lib ∅ |})
                        1] |}).
Proof.
  apply (@searchBox_options_reach_component
           Sample.lib Sample.acceptingSearchBox
           (Sample.searchOptions (VElem 1) VUndefined) Sample.world
           (Sample.searchSpecialized VUndefined)
           {| dom := Sample.page; heap := [];
              log := [EvWarning true SearchBox.autofocus_message] |}
           eq_refl Sample.searchPayload true Sample.world).
Defined.

Lemma menuSelect_renderer_any_flags_witness :
  let w' := (run_calls (@MenuSelect.renderer Sample.lib Sample.acceptingMenu
                          Sample.menuParams) Sample.menuCalls Sample.world1).2 in
  render_calls (log w') = 2
  /\ stores_to 0 (log w') = 1
  /\ length (heap w') = 1
  /\ heap w' !! 0
     = Some {| templateProps :=
                 Some (MenuSelect.prepareTemplateProps_model
                         (@MenuSelect.prepare_args Sample.lib
                            Sample.acceptingMenu Sample.menuParams
                            Sample.menuPayload)) |}.
Proof.
  destruct (@menuSelect_renderer_any_flags Sample.lib Sample.acceptingMenu
              Sample.menuParams Sample.menuCalls Sample.world1
              emptyRenderState eq_refl)
    as (Hr & Hs & Hlen & Hcell & _).
  repeat split; assumption.
Defined.

Lemma menuSelect_render_before_prepare_witness :
  @MenuSelect.renderer Sample.lib Sample.acceptingMenu
     (Sample.menuSpecialized 0) Sample.menuPayload false Sample.world1
  = (Returned tt,
     {| dom := Sample.page; heap := [emptyRenderState];
        log := [] ++ [EvRender (MenuSelect.element (Sample.menuSpecialized 0)
                                                   Sample.menuPayload None) 1] |}).
Proof.
  apply (@menuSelect_render_before_prepare Sample.lib Sample.acceptingMenu
           (Sample.menuOptions (VElem 1) (VStr "brand")) Sample.world
           (Sample.menuSpecialized 0) Sample.world1 eq_refl Sample.menuPayload).
Defined.

Lemma renderState_isolated_witness :
  0 <> 1
  /\ heap (@MenuSelect.renderer Sample.lib Sample.acceptingMenu
             (Sample.menuSpecialized 1) Sample.menuPayload true
             Sample.world2).2 !! 0
     = Some emptyRenderState
  /\ heap (@MenuSelect.renderer Sample.lib Sample.acceptingMenu
             (Sample.menuSpecialized 0) Sample.menuPayload true
             Sample.world2).2 !! 1
     = Some emptyRenderState.
Proof.
  destruct (@renderState_isolated Sample.lib Sample.acceptingMenu
              (Sample.menuOptions (VElem 1) (VStr "brand"))
              (Sample.menuOptions (VElem 1) (VStr "brand"))
              Sample.world Sample.world1 Sample.world1 Sample.world2
              (Sample.menuSpecialized 0) (Sample.menuSpecialized 1)
              eq_refl (le_n 1) eq_refl)
    as [Hne Hframe].
  split; [exact Hne |].
  exact (Hframe Sample.menuPayload true Sample.world2).
Defined.

Lemma disposer_frame_witness :
  dom (SearchBox.disposer 1 Sample.world).2 !! 3
  = Some {| tagName := "SPAN"; parentNode := None; childNodes := [4] |}
  /\ dom (SearchBox.disposer 1 Sample.world).2 !! 4
     = Some {| tagName := "svg"; parentNode := Some 3; childNodes := [] |}.
Proof.
  split.
  - apply (disposer_frame Sample.world 1
             {| tagName := "DIV"; parentNode := Some 0; childNodes := [2; 3] |} 3);
      [reflexivity | discriminate].
  - apply (disposer_frame Sample.world 1
             {| tagName := "DIV"; parentNode := Some 0; childNodes := [2; 3] |} 4);
      [reflexivity | discriminate].
Defined.

Lemma disposer_preserves_wf_witness :
  dom_wfb (dom (SearchBox.disposer 1 Sample.world).2) = true.
Proof. apply (disposer_preserves_wf Sample.world 1). reflexivity. Defined.

Lemma cssClasses_slots_witness :
  @SearchBox.build_cssClasses Sample.lib
     (<["form" := ClsString "my-form"]> ∅) !! "root"
  = Some "ais-SearchBox"
  /\ @MenuSelect.build_cssClasses Sample.lib
       (<["typo" := ClsString "mine"]> ∅) !! "noRefinementRoot"
     = Some "ais-MenuSelect--noRefinement".
Proof.
  split.
  - apply (proj1 (proj2 (proj2 (@cssClasses_slots Sample.lib)))
             (<["form" := ClsString "my-form"]> ∅) "root").
    + vm_compute. reflexivity.
    + repeat constructor.
  - apply (proj2 (proj2 (proj2 (@cssClasses_slots Sample.lib)))
             (<["typo" := ClsString "mine"]> ∅) "noRefinementRoot").
    + vm_compute. reflexivity.
    + repeat constructor.
Defined.

Lemma templates_merge_domain_witness :
  (is_Some (SearchBox.r_templates (Sample.searchSpecialized VUndefined)
              !! "reset")
   <-> is_Some (Sample.searchTemplates !! "reset")
       \/ exists t : gmap string value,
            None = Some t /\ is_Some (t !! "reset"))
  /\ SearchBox.r_templates (Sample.searchSpecialized VUndefined)
     = Sample.searchTemplates.
Proof.
  destruct (@templates_merge_domain Sample.lib Sample.acceptingSearchBox
              (Sample.searchOptions (VElem 1) VUndefined) Sample.world
              (Sample.searchSpecialized VUndefined)
              {| dom := Sample.page; heap := [];
                 log := [EvWarning true SearchBox.autofocus_message] |}
              eq_refl)
    as (Hdom & Hnone & _).
  split; [exact (Hdom "reset") | exact (Hnone eq_refl)].
Defined.
